(** * Shortcut registry of the Flow Launcher shortcuts-plugin template

    A shallow embedding of [templates/template_shortcuts_plugin.py]
    (class [ShortcutsPlugin]) and the properties of its registry:
    lookup, listing by category, execution, deletion and persistence.

    Modelling conventions.
    - A shortcut is a Python [dict] with string keys, as [json.load]
      produces it: a [gmap string pyval].  Field values range over the
      JSON scalars ([None], booleans, integers, strings); floating-point
      numbers and nested arrays or objects as field values are outside
      the model.
    - Python [str] values are Rocq strings (their UTF-8 bytes, whose
      lexicographic order is the code-point order Python compares by).
      [lower] and [strip] are [str.lower] and [str.strip] on ASCII
      text, where the two agree with Python character by character;
      they say nothing of other text, and every theorem that speaks
      of them assumes that the query text and the stored keywords are
      ASCII ([ascii_text], [ascii_keyword]).
    - A Python call either returns or raises: [outcome].  Methods that
      touch the disk or the operating system thread the [plugin] state
      explicitly and return an outcome with the new state.
    - The class assigns no [logger], and the [FlowLauncher] base class
      of the declared dependency (flowlauncher 0.2.0) has none either:
      the lookup [self.logger] in an [except] handler raises
      [AttributeError], which leaves the method ([logger_error]). *)

From Stdlib Require Import ZArith Ascii String DecimalString Sorting.Sorted.
From stdpp Require Import base option list strings gmap.

Local Open Scope string_scope.
Local Open Scope Z_scope.
Local Open Scope list_scope.

(** ** Python values and exceptions *)

Inductive exn : Set :=
  | KeyError          (* d[k] on a dict without key k *)
  | TypeError         (* an operation applied to a value of the wrong type *)
  | AttributeError    (* a method looked up on a value that lacks it *)
  | OSError           (* the operating system refused a request *)
  | JSONDecodeError.  (* json.load on text that is not JSON *)

Inductive outcome (A : Type) : Type :=
  | Ret (a : A)
  | Raise (e : exn).
Arguments Ret {A} a.
Arguments Raise {A} e.

#[global] Instance outcome_ret : MRet outcome := @Ret.
#[global] Instance outcome_bind : MBind outcome := λ A B f m,
  match m with
  | Ret a => f a
  | Raise e => Raise e
  end.
#[global] Instance outcome_fmap : FMap outcome := λ A B f m,
  match m with
  | Ret a => Ret (f a)
  | Raise e => Raise e
  end.

Inductive pyval : Set :=
  | PNone
  | PBool (b : bool)
  | PInt (z : Z)
  | PStr (s : string).

#[global] Instance pyval_eq_dec : EqDecision pyval.
Proof. solve_decision. Defined.

(** [bool] is a subclass of [int]: [True == 1] and [False == 0]. *)
Definition as_int (v : pyval) : option Z :=
  match v with
  | PBool b => Some (if b then 1 else 0)
  | PInt z => Some z
  | _ => None
  end.

(** [a == b] *)
Definition py_eq (a b : pyval) : bool :=
  match a, b with
  | PNone, PNone => true
  | PStr s, PStr t => String.eqb s t
  | _, _ =>
      match as_int a, as_int b with
      | Some x, Some y => x =? y
      | _, _ => false
      end
  end.

(** [a < b]: numbers with numbers, strings with strings, anything else
    is a [TypeError]. *)
Definition py_lt (a b : pyval) : outcome bool :=
  match a, b with
  | PStr s, PStr t => Ret (String.ltb s t)
  | _, _ =>
      match as_int a, as_int b with
      | Some x, Some y => Ret (x <? y)
      | _, _ => Raise TypeError
      end
  end.

(** Truth value of a scalar, as [if v:] tests it. *)
Definition truthy (v : pyval) : bool :=
  match v with
  | PNone => false
  | PBool b => b
  | PInt z => negb (z =? 0)
  | PStr s => negb (String.eqb s EmptyString)
  end.

(** [str(v)], the text an f-string substitutes for [{v}]. *)
Definition py_str (v : pyval) : string :=
  match v with
  | PNone => "None"
  | PBool true => "True"
  | PBool false => "False"
  | PInt z => NilZero.string_of_int (Z.to_int z)
  | PStr s => s
  end.

(** ** Strings: [lower] and [strip]

    [str.lower] and [str.strip] on ASCII text.  Below code point 128
    Python lowercases the letters A to Z and nothing else, and strips
    the ten characters of [isspace]; on text with other characters the
    two functions below are not Python's, and no theorem uses them
    there. *)

Definition lower_char (c : ascii) : ascii :=
  let n := Ascii.N_of_ascii c in
  if ((65 <=? n) && (n <=? 90))%N then Ascii.ascii_of_N (n + 32) else c.

Fixpoint lower (s : string) : string :=
  match s with
  | EmptyString => EmptyString
  | String c s' => String (lower_char c) (lower s')
  end.

(** Whitespace as [str.strip] sees it below code point 128:
    TAB, LF, VT, FF, CR, FS, GS, RS, US and the space (Python strips
    further characters above 127, such as U+0085 and U+00A0). *)
Definition isspace (c : ascii) : bool :=
  let n := Ascii.N_of_ascii c in
  (((9 <=? n) && (n <=? 13)) || ((28 <=? n) && (n <=? 32)))%N.

Fixpoint lstrip (s : string) : string :=
  match s with
  | EmptyString => EmptyString
  | String c s' => if isspace c then lstrip s' else s
  end.

Definition rstrip (s : string) : string := String.rev (lstrip (String.rev s)).

Definition strip (s : string) : string := rstrip (lstrip s).

(** [v.lower()] on a value that need not be a string. *)
Definition py_lower (v : pyval) : outcome string :=
  match v with
  | PStr s => Ret (lower s)
  | _ => Raise AttributeError
  end.

(** ** Shortcut records *)

Abbreviation shortcut := (gmap string pyval).

(** [d[k]] *)
Definition subscript (d : shortcut) (k : string) : outcome pyval :=
  match d !! k with
  | Some v => Ret v
  | None => Raise KeyError
  end.

(** [d.get(k, dflt)] *)
Definition dict_get (d : shortcut) (k : string) (dflt : pyval) : pyval :=
  default dflt (d !! k).

(** Truth value of a dict: false exactly when it is empty. *)
Definition dict_truthy (d : shortcut) : bool := negb (bool_decide (d = ∅)).

(** ** Display results

    A result is the dict the host renders: [Title], [SubTitle] and
    [IcoPath] always, [JsonRPCAction] and [ContextData] on shortcut
    entries only. *)

Record rpc_action : Type := RpcAction {
  method : string;
  parameters : list pyval
}.

Record result_item : Type := ResultItem {
  Title : pyval;
  SubTitle : pyval;
  IcoPath : pyval;
  JsonRPCAction : option rpc_action;
  ContextData : option pyval
}.

(** ** The plugin object and its surroundings *)

(** What [json.load] makes of the text of [shortcuts.json]: an object,
    of which only the member [shortcuts] is ever read, or some other
    JSON value. *)
Inductive document : Type :=
  | DocObject (members : option (list shortcut))
  | DocOther.

Inductive file_state : Type :=
  | FileAbsent                (* os.path.exists is false *)
  | FileUnreadable            (* the file exists, open(..., 'r') raises *)
  | FileMalformed             (* the text is not JSON *)
  | FileJson (data : document).

Inductive popen_args : Type :=
  | Cmdline (command : string)     (* subprocess.Popen("...") *)
  | Argv (args : list string).     (* subprocess.Popen([..., ...]) *)

(** Requests made to the operating system, in the order they are made. *)
Inductive os_event : Type :=
  | Expandvars (path : string)     (* os.path.expandvars(path) *)
  | Startfile (path : string)      (* os.startfile(path) *)
  | Popen (args : popen_args).     (* subprocess.Popen(args) *)

Inductive log_entry : Type :=
  | LogError (message : string) (e : exn).

Record plugin : Type := Plugin {
  shortcuts : list shortcut;       (* self.shortcuts *)
  disk : file_state;               (* the file self.shortcuts_file *)
  disk_writable : bool;            (* whether open(..., 'w') succeeds *)
  os_trace : list os_event;
  log : list log_entry             (* what a logger has recorded *)
}.

Definition act (A : Type) : Type := plugin → outcome A * plugin.

#[global] Instance act_ret : MRet act := λ A a σ, (Ret a, σ).
#[global] Instance act_bind : MBind act := λ A B f m σ,
  match m σ with
  | (Ret a, σ') => f a σ'
  | (Raise e, σ') => (Raise e, σ')
  end.

(** Lift a computation that touches no state. *)
Definition lift {A : Type} (m : outcome A) : act A := λ σ, (m, σ).

(** [try: body except Exception as e: handler(e)] *)
Definition try_except {A : Type} (body : act A) (handler : exn → act A) : act A :=
  λ σ,
  match body σ with
  | (Ret a, σ') => (Ret a, σ')
  | (Raise e, σ') => handler e σ'
  end.

Definition set_shortcuts (l : list shortcut) : act unit := λ σ,
  (Ret tt, Plugin l (disk σ) (disk_writable σ) (os_trace σ) (log σ)).

Definition write_disk (f : file_state) : act unit := λ σ,
  (Ret tt, Plugin (shortcuts σ) f (disk_writable σ) (os_trace σ) (log σ)).

Definition emit (ev : os_event) : act unit := λ σ,
  (Ret tt, Plugin (shortcuts σ) (disk σ) (disk_writable σ) (os_trace σ ++ [ev]) (log σ)).

(** [self.logger.error(f"{message}: {e}")].  The object has no
    attribute [logger]: the lookup raises [AttributeError] before the
    message is built, and nothing is recorded. *)
Definition logger_error (message : string) (e : exn) : act unit := λ σ,
  (Raise AttributeError, σ).

(** ** Persistence: [load_shortcuts] and [save_shortcuts] *)

(** [open(self.shortcuts_file, 'r')] followed by [json.load(f)] *)
Definition json_load (f : file_state) : outcome document :=
  match f with
  | FileAbsent | FileUnreadable => Raise OSError
  | FileMalformed => Raise JSONDecodeError
  | FileJson data => Ret data
  end.

(** [data.get('shortcuts', [])]; only a dict has [get]. *)
Definition data_get_shortcuts (data : document) : outcome (list shortcut) :=
  match data with
  | DocObject members => Ret (default [] members)
  | DocOther => Raise AttributeError
  end.

Definition file_exists (f : file_state) : bool :=
  match f with
  | FileAbsent => false
  | _ => true
  end.

Definition load_shortcuts : act (list shortcut) :=
  try_except
    (λ σ,
       if file_exists (disk σ) then
         lift (data ← json_load (disk σ); data_get_shortcuts data) σ
       else (Ret [], σ))
    (λ e, logger_error "Error loading shortcuts" e;; mret []).

(** [open(self.shortcuts_file, 'w')] and
    [json.dump({'shortcuts': self.shortcuts}, f, indent=2)] *)
Definition json_dump_shortcuts : act unit := λ σ,
  if disk_writable σ then write_disk (FileJson (DocObject (Some (shortcuts σ)))) σ
  else (Raise OSError, σ).

Definition save_shortcuts : act unit :=
  try_except json_dump_shortcuts (λ e, logger_error "Error saving shortcuts" e).

(** [__init__]: [self.shortcuts = self.load_shortcuts()] *)
Definition init : act unit :=
  l ← load_shortcuts; set_shortcuts l.

(** ** Queries: [query], [format_shortcut_result], [show_shortcut_list] *)

Definition format_shortcut_result (s : shortcut) : outcome result_item :=
  k ← subscript s "keyword";
  k' ← subscript s "keyword";
  mret {| Title := dict_get s "name" (PStr "Unnamed");
          SubTitle := dict_get s "path" (PStr EmptyString);
          IcoPath := dict_get s "icon" (PStr "Images/icon.png");
          JsonRPCAction := Some (RpcAction "execute_shortcut" [k]);
          ContextData := Some k' |}.

(** Python's [sorted]: stable, and a comparison that raises aborts it.
    An element goes in front of the sorted rest and moves right past
    every element strictly smaller than it. *)
Section Sorted.
Context {A : Type} (lt : A → A → outcome bool).

Fixpoint insert_sorted (x : A) (l : list A) : outcome (list A) :=
  match l with
  | [] => Ret [x]
  | y :: l' =>
      b ← lt y x;
      if b : bool then r ← insert_sorted x l'; mret (y :: r) else mret (x :: l)
  end.

Fixpoint sorted (l : list A) : outcome (list A) :=
  match l with
  | [] => Ret []
  | x :: l' => r ← sorted l'; insert_sorted x r
  end.
End Sorted.

(** [sorted(l, key=key, reverse=reverse)] *)
Definition py_sorted {A : Type} (key : A → pyval) (reverse : bool) (l : list A)
  : outcome (list A) :=
  sorted (λ a b, if reverse then py_lt (key b) (key a) else py_lt (key a) (key b)) l.

(** The dict [categories], in insertion order.  Keys are looked up with
    [==]; a key already present keeps its list, which grows at the end. *)
Fixpoint categories_append (categories : list (pyval * list shortcut))
    (category : pyval) (s : shortcut) : list (pyval * list shortcut) :=
  match categories with
  | [] => [(category, [s])]
  | (c, l) :: rest =>
      if py_eq c category then (c, l ++ [s]) :: rest
      else (c, l) :: categories_append rest category s
  end.

Definition category_of (s : shortcut) : pyval :=
  dict_get s "category" (PStr "Uncategorized").

Definition priority_of (s : shortcut) : pyval :=
  dict_get s "priority" (PInt 0).

Definition group_by_category (reg : list shortcut) : list (pyval * list shortcut) :=
  fold_left (λ categories s, categories_append categories (category_of s) s) reg [].

Definition string_of_nat (n : nat) : string :=
  NilZero.string_of_uint (Nat.to_uint n).

Definition header_item (category : pyval) (count : nat) : result_item :=
  {| Title := PStr ("📁 " +:+ py_str category);
     SubTitle := PStr (string_of_nat count +:+ " shortcuts");
     IcoPath := PStr "Images/folder.png";
     JsonRPCAction := None;
     ContextData := None |}.

(** One turn of the loop over [sorted(categories.items())]: the header,
    then the members by descending priority.  The keys of a dict are
    pairwise distinct, so two items compare by their keys. *)
Definition show_category (item : pyval * list shortcut) : outcome (list result_item) :=
  ordered ← py_sorted priority_of true item.2;
  entries ← mapM format_shortcut_result ordered;
  mret (header_item item.1 (length item.2) :: entries).

Definition show_shortcut_list (self : plugin) : outcome (list result_item) :=
  items ← py_sorted fst false (group_by_category (shortcuts self));
  blocks ← mapM show_category items;
  mret (concat blocks).

Definition help_item : result_item :=
  {| Title := PStr "Type a shortcut keyword";
     SubTitle := PStr "Or type 'list' to see all shortcuts";
     IcoPath := PStr "Images/icon.png";
     JsonRPCAction := None;
     ContextData := None |}.

(** The loop of [query] over [self.shortcuts]. *)
Fixpoint search_by_keyword (text : string) (reg : list shortcut)
  : outcome (list result_item) :=
  match reg with
  | [] => Ret []
  | s :: rest =>
      k ← py_lower (dict_get s "keyword" (PStr EmptyString));
      if String.eqb (lower text) k then
        r ← format_shortcut_result s;
        results ← search_by_keyword text rest;
        mret (r :: results)
      else search_by_keyword text rest
  end.

Definition query (self : plugin) (text : string) : outcome (list result_item) :=
  if String.eqb (lower text) "list" then show_shortcut_list self
  else if negb (String.eqb (strip text) EmptyString) then
    search_by_keyword text (shortcuts self)
  else Ret [help_item].

(** ** Lookup, execution and deletion *)

(** [next((s for s in self.shortcuts if s['keyword'] == keyword), None)] *)
Fixpoint resolve (reg : list shortcut) (keyword : string) : outcome (option shortcut) :=
  match reg with
  | [] => Ret None
  | s :: rest =>
      k ← subscript s "keyword";
      if py_eq k (PStr keyword) then Ret (Some s) else resolve rest keyword
  end.

(** [[s for s in self.shortcuts if s['keyword'] != keyword]] *)
Fixpoint without_keyword (reg : list shortcut) (keyword : string) : outcome (list shortcut) :=
  match reg with
  | [] => Ret []
  | s :: rest =>
      k ← subscript s "keyword";
      kept ← without_keyword rest keyword;
      mret (if py_eq k (PStr keyword) then kept else s :: kept)
  end.

Definition delete_shortcut (keyword : string) : act unit := λ σ,
  (kept ← lift (without_keyword (shortcuts σ) keyword);
   set_shortcuts kept;;
   save_shortcuts) σ.

Definition dquote : string := String (ascii_of_nat 34) EmptyString.

Section Host.
(** The process environment, as [os.path.expandvars] reads it, and the
    requests the operating system turns down with an [OSError]. *)
Variable expandvars : string → string.
Variable os_refuses : os_event → bool.

(** [os.path.expandvars(path)]; a path that is not a string is a
    [TypeError]. *)
Definition os_path_expandvars (path : pyval) : act string :=
  match path with
  | PStr p => emit (Expandvars p);; mret (expandvars p)
  | _ => lift (Raise TypeError)
  end.

Definition os_request (ev : os_event) : act unit :=
  emit ev;; if os_refuses ev then lift (Raise OSError) else mret tt.

Definition os_startfile (path : string) : act unit := os_request (Startfile path).

Definition subprocess_Popen (args : popen_args) : act unit := os_request (Popen args).

(** The [if]/[elif] chain on the type of the shortcut. *)
Definition dispatch (s : shortcut) (path : string) : act unit :=
  let shortcut_type := dict_get s "type" (PStr "file") in
  if py_eq shortcut_type (PStr "url") then
    os_startfile path
  else if py_eq shortcut_type (PStr "folder") then
    subprocess_Popen (Cmdline ("explorer " +:+ dquote +:+ path +:+ dquote))
  else if py_eq shortcut_type (PStr "file") then
    let open_with := default PNone (s !! "openWith") in
    if truthy open_with then
      match open_with with
      | PStr program => subprocess_Popen (Argv [program; path])
      | _ => lift (Raise TypeError)
      end
    else os_startfile path
  else if py_eq shortcut_type (PStr "app") then
    subprocess_Popen (Cmdline path)
  else mret tt.

(** The body of the [try] block of [execute_shortcut]. *)
Definition launch (s : shortcut) : act bool :=
  path ← os_path_expandvars (dict_get s "path" (PStr EmptyString));
  dispatch s path;;
  mret true.

Definition execute_shortcut (keyword : string) : act bool := λ σ,
  match resolve (shortcuts σ) keyword with
  | Raise e => (Raise e, σ)
  | Ret None => (Ret false, σ)
  | Ret (Some s) =>
      if negb (dict_truthy s) then (Ret false, σ)
      else
        try_except (launch s)
          (λ e, logger_error "Error executing shortcut" e;; mret false) σ
  end.
End Host.

(** ** The data model of the registry

    Predicates that say which dicts are shortcut records: [keyword] is
    required and is a string, the other fields are optional, [priority]
    is an integer and the remaining ones are strings. *)

Definition has_keyword (s : shortcut) : Prop := is_Some (s !! "keyword").

(** The record's keyword is exactly the string [k]. *)
Definition keyword_is (k : string) (s : shortcut) : bool :=
  bool_decide (s !! "keyword" = Some (PStr k)).

Definition is_str (o : option pyval) : bool :=
  match o with
  | Some (PStr _) => true
  | _ => false
  end.

Definition opt_str (o : option pyval) : bool :=
  match o with
  | None | Some (PStr _) => true
  | _ => false
  end.

Definition opt_int (o : option pyval) : bool :=
  match o with
  | None | Some (PInt _) => true
  | _ => false
  end.

Definition valid_shortcut (s : shortcut) : bool :=
  is_str (s !! "keyword") && opt_str (s !! "name") && opt_str (s !! "type")
  && opt_str (s !! "path") && opt_str (s !! "category") && opt_int (s !! "priority")
  && opt_str (s !! "icon") && opt_str (s !! "openWith").

Definition valid_registry (reg : list shortcut) : bool := forallb valid_shortcut reg.

(** The record's keyword is a string that equals [text] once both are
    lowercased. *)
Definition keyword_matches (text : string) (s : shortcut) : bool :=
  match s !! "keyword" with
  | Some (PStr k) => String.eqb (lower text) (lower k)
  | _ => false
  end.

(** Sample records. *)
Definition record (fields : list (string * pyval)) : shortcut := list_to_map fields.

Definition plugin_of (reg : list shortcut) : plugin :=
  Plugin reg FileAbsent true [] [].

(** The state after further requests to the operating system. *)
Definition with_events (σ : plugin) (evs : list os_event) : plugin :=
  Plugin (shortcuts σ) (disk σ) (disk_writable σ) (os_trace σ ++ evs) (log σ).

(** Text whose characters are all below 128, where [lower] and [strip]
    are [str.lower] and [str.strip]; and a record whose keyword, if it
    is a string, is such a text. *)
Definition ascii_char (c : ascii) : bool := (N_of_ascii c <? 128)%N.

Fixpoint ascii_text (s : string) : bool :=
  match s with
  | EmptyString => true
  | String c s' => ascii_char c && ascii_text s'
  end.

Definition ascii_keyword (s : shortcut) : bool :=
  match s !! "keyword" with
  | Some (PStr k) => ascii_text k
  | _ => true
  end.

(** [__init__] followed at once by [save_shortcuts]. *)
Definition load_then_save : act unit := init;; save_shortcuts.

(** Every character of the text is whitespace (vacuously so for the
    empty text). *)
Fixpoint blank (s : string) : bool :=
  match s with
  | EmptyString => true
  | String c s' => isspace c && blank s'
  end.

(** The sort that [sorted] computes when no comparison raises: stable
    insertion sort for a comparison that always answers. *)
Section InsertionSort.
Context {A : Type} (ltb : A → A → bool).

Fixpoint insert_pure (x : A) (l : list A) : list A :=
  match l with
  | [] => [x]
  | y :: l' => if ltb y x then y :: insert_pure x l' else x :: l
  end.

Fixpoint isort (l : list A) : list A :=
  match l with
  | [] => []
  | x :: l' => insert_pure x (isort l')
  end.
End InsertionSort.

Definition has_category (c : pyval) (s : shortcut) : bool :=
  bool_decide (category_of s = c).

Definition has_priority (p : pyval) (s : shortcut) : bool :=
  bool_decide (priority_of s = p).

(** The priority as a number, and the orders the two sorts of
    [show_shortcut_list] use on records of the data model: items by
    category name, members by descending priority. *)
Definition priority_number (s : shortcut) : Z := default 0 (as_int (priority_of s)).

Definition item_ltb (a b : pyval * list shortcut) : bool :=
  String.ltb (py_str a.1) (py_str b.1).

Definition priority_gtb (a b : shortcut) : bool :=
  priority_number b <? priority_number a.

(** The flat listing of groups that are already in display order: for
    each group its header, then the entries of its members. *)
Definition render_group (g : pyval * list shortcut) : outcome (list result_item) :=
  entries ← mapM format_shortcut_result g.2;
  mret (header_item g.1 (length g.2) :: entries).

Definition render (groups : list (pyval * list shortcut)) : outcome (list result_item) :=
  blocks ← mapM render_group groups;
  mret (concat blocks).

(** The groups [show_shortcut_list] displays for a registry of valid
    records: the items sorted by category, the members of each sorted
    by descending priority. *)
Definition display_groups (reg : list shortcut) : list (pyval * list shortcut) :=
  map (λ g, (g.1, isort priority_gtb g.2)) (isort item_ltb (group_by_category reg)).

(** What holds of the dict [categories] once the loop of
    [show_shortcut_list] has gone through the records [l]: keys are
    distinct, each key holds the records of its category in registry
    order, and every record's category is a key. *)
Definition grouped (l : list shortcut) (G : list (pyval * list shortcut)) : Prop :=
  NoDup (map fst G)
  ∧ Forall (λ g, g.2 = List.filter (has_category g.1) l ∧ g.2 ≠ []) G
  ∧ (∀ r, In r l → category_of r ∈ map fst G).

(** The registry of the listing scenario. *)
Definition scenario_a : shortcut :=
  record [("keyword", PStr "a"); ("category", PStr "X"); ("priority", PInt 1)].
Definition scenario_b : shortcut :=
  record [("keyword", PStr "b"); ("category", PStr "X"); ("priority", PInt 5)].
Definition scenario_c : shortcut :=
  record [("keyword", PStr "c"); ("category", PStr "Y"); ("priority", PInt 0)].

(** A record without the required [keyword]. *)
Definition nameless : shortcut :=
  record [("name", PStr "Notes"); ("path", PStr "notes.txt")].

(** A registry with a duplicated keyword, one record of each type. *)
Definition sample_go : shortcut :=
  record [("keyword", PStr "go"); ("name", PStr "Site"); ("type", PStr "url");
          ("path", PStr "https://example.org"); ("category", PStr "Web")].
Definition sample_docs : shortcut :=
  record [("keyword", PStr "docs"); ("type", PStr "folder");
          ("path", PStr "%USERPROFILE%\Documents"); ("priority", PInt 5)].
Definition sample_go_again : shortcut :=
  record [("keyword", PStr "go"); ("name", PStr "Calculator"); ("type", PStr "app");
          ("path", PStr "calc.exe"); ("category", PStr "Web"); ("priority", PInt 100)].
Definition sample_notes : shortcut :=
  record [("keyword", PStr "Notes"); ("path", PStr "notes.txt");
          ("openWith", PStr "notepad.exe")].

Definition sample_registry : list shortcut :=
  [sample_go; sample_docs; sample_go_again; sample_notes].

(** Two records whose keyword is a single space. *)
Definition blank_registry : list shortcut :=
  [record [("keyword", PStr " "); ("name", PStr "First")];
   record [("keyword", PStr " "); ("name", PStr "Second")]].

(** ** The remaining actions: [open_editor] and [copy_path] *)

Section Editor.
(** [sys.executable], the path [editor_path] that [open_editor] joins
    from the plugin folder, whether a file exists there, and
    [self.shortcuts_file]. *)
Variables (sys_executable editor_path shortcuts_file : string).
Variable editor_exists : bool.
Variable os_refuses : os_event → bool.

Definition open_editor : act unit :=
  try_except
    (if editor_exists then
       subprocess_Popen os_refuses (Argv [sys_executable; editor_path])
     else os_startfile os_refuses shortcuts_file)
    (λ e, logger_error "Error opening editor" e).
End Editor.

(** How a call of [copy_path] ends: it returns, leaving the clipboard in
    some state; the lookup raises; or [import pyperclip] or
    [pyperclip.copy], which no [try] surrounds, raise. *)
Inductive copy_result (E Clip : Type) : Type :=
  | CopyReturn (clip : Clip)
  | CopyRaise (e : exn)
  | CopyFault (err : E).
Arguments CopyReturn {E Clip} clip.
Arguments CopyRaise {E Clip} e.
Arguments CopyFault {E Clip} err.

Section Clipboard.
(** [import pyperclip; pyperclip.copy(v)] on a clipboard: the new
    clipboard, or the fault that the import or the copy raises. *)
Context {E Clip : Type}.
Variable pyperclip_copy : pyval → Clip → E + Clip.

Definition copy_path (keyword : string) (self : plugin) (clip : Clip)
  : copy_result E Clip :=
  match resolve (shortcuts self) keyword with
  | Raise e => CopyRaise e
  | Ret None => CopyReturn clip
  | Ret (Some s) =>
      if dict_truthy s then
        match pyperclip_copy (dict_get s "path" (PStr EmptyString)) clip with
        | inl err => CopyFault err
        | inr clip' => CopyReturn clip'
        end
      else CopyReturn clip
  end.
End Clipboard.

(** A clipboard that keeps what was copied last, and one whose module
    cannot be imported. *)
Definition clipboard_set (v : pyval) (clip : option pyval) : unit + option pyval :=
  inr (Some v).

Definition clipboard_missing (v : pyval) (clip : option pyval) : unit + option pyval :=
  inl tt.

(** A record that the search for [k] finds and the deletion of [k]
    keeps: its keyword equals [k] up to case, but not exactly. *)
Definition survives_delete (k : string) (s : shortcut) : bool :=
  keyword_matches k s && negb (keyword_is k s).

(** A record of an unknown type, and one whose path is a number. *)
Definition sample_website : shortcut :=
  record [("keyword", PStr "w"); ("type", PStr "website"); ("path", PStr "x")].
Definition sample_numeric_path : shortcut :=
  record [("keyword", PStr "n"); ("path", PInt 7)].

(** * Properties *)

(** ** Basic facts *)

Lemma py_eq_str (v : pyval) (k : string) : py_eq v (PStr k) = true ↔ v = PStr k.
Proof.
  destruct v as [|b|z|s]; simpl; try (split; discriminate).
  rewrite String.eqb_eq. split; [intros ->; reflexivity | intros [= ->]; reflexivity].
Qed.

Lemma py_eq_keyword_is (s : shortcut) (v : pyval) (k : string) :
  s !! "keyword" = Some v → py_eq v (PStr k) = keyword_is k s.
Proof.
  intros Hs. unfold keyword_is. rewrite Hs.
  destruct (py_eq v (PStr k)) eqn:E.
  - apply py_eq_str in E as ->. symmetry. by apply bool_decide_eq_true.
  - symmetry. apply bool_decide_eq_false. intros [= ->].
    assert (py_eq (PStr k) (PStr k) = true) by by apply py_eq_str.
    congruence.
Qed.

Lemma resolve_cons (s : shortcut) (rest : list shortcut) (k : string) :
  has_keyword s →
  resolve (s :: rest) k = if keyword_is k s then Ret (Some s) else resolve rest k.
Proof.
  intros [v Hv]. cbn [resolve]. unfold subscript. rewrite Hv. cbn.
  by rewrite (py_eq_keyword_is s v k Hv).
Qed.

Lemma resolve_head_filter (reg : list shortcut) (k : string) :
  Forall has_keyword reg →
  resolve reg k = Ret (head (List.filter (keyword_is k) reg)).
Proof.
  induction 1 as [|s rest Hs _ IH]; [reflexivity|].
  rewrite resolve_cons by done. cbn [List.filter].
  destruct (keyword_is k s); [reflexivity | exact IH].
Qed.

Lemma filter_none_nil {A} (f : A → bool) (l : list A) :
  Forall (λ x, f x = false) l → List.filter f l = [].
Proof.
  induction 1 as [|x l Hx _ IH]; [reflexivity|]. cbn. by rewrite Hx.
Qed.

(** ** Lookup *)

(** C1. [resolve] compares the stored [keyword] with [k] exactly (hence
    case-sensitively), in sequence order: on a registry whose records
    all carry a keyword it returns the first record whose keyword is
    [k], however many there are, and the absent result [None], not an
    exception, when there is none; on the empty registry it returns
    [None]. *)
Theorem resolve_first_match (reg : list shortcut) (k : string) :
  Forall has_keyword reg →
  resolve reg k = Ret (head (List.filter (keyword_is k) reg))
  ∧ (∀ pre s post,
       reg = pre ++ s :: post →
       Forall (λ r, keyword_is k r = false) pre →
       s !! "keyword" = Some (PStr k) →
       resolve reg k = Ret (Some s))
  ∧ (Forall (λ r, r !! "keyword" ≠ Some (PStr k)) reg → resolve reg k = Ret None)
  ∧ resolve [] k = Ret None.
Proof.
  intros Hreg. pose proof (resolve_head_filter reg k Hreg) as Hres.
  split; [exact Hres|]. split; [|split; [|reflexivity]].
  - intros pre s post -> Hpre Hs. rewrite Hres, List.filter_app.
    rewrite (filter_none_nil _ _ Hpre). cbn.
    replace (keyword_is k s) with true; [reflexivity|].
    symmetry. by apply bool_decide_eq_true.
  - intros Hnone. rewrite Hres, filter_none_nil; [reflexivity|].
    eapply Forall_impl; [exact Hnone|]. intros r Hr. by apply bool_decide_eq_false.
Qed.

(** ** Deletion *)

Lemma without_keyword_filter (reg : list shortcut) (k : string) :
  Forall has_keyword reg →
  without_keyword reg k = Ret (List.filter (λ s, negb (keyword_is k s)) reg).
Proof.
  induction 1 as [|s rest [v Hv] _ IH]; [reflexivity|].
  cbn [without_keyword List.filter]. unfold subscript. rewrite Hv, IH. cbn.
  rewrite (py_eq_keyword_is s v k Hv). by destruct (keyword_is k s).
Qed.

Lemma save_shortcuts_outcome (σ : plugin) :
  (save_shortcuts σ).1 = if disk_writable σ then Ret tt else Raise AttributeError.
Proof.
  unfold save_shortcuts, try_except, json_dump_shortcuts.
  by destruct (disk_writable σ).
Qed.

Lemma save_shortcuts_keeps (σ : plugin) :
  shortcuts (save_shortcuts σ).2 = shortcuts σ.
Proof.
  unfold save_shortcuts, try_except, json_dump_shortcuts.
  by destruct (disk_writable σ).
Qed.

Lemma delete_shortcut_eq (σ : plugin) (k : string) :
  Forall has_keyword (shortcuts σ) →
  delete_shortcut k σ =
  save_shortcuts
    (Plugin (List.filter (λ s, negb (keyword_is k s)) (shortcuts σ))
       (disk σ) (disk_writable σ) (os_trace σ) (log σ)).
Proof.
  intros Hreg. unfold delete_shortcut. cbn.
  unfold mbind at 1, act_bind, lift. by rewrite (without_keyword_filter _ k Hreg).
Qed.

(** C3. On a registry whose records all carry a keyword,
    [delete_shortcut k] keeps exactly the records whose keyword is not
    [k], in their original order: every record with keyword [k] is
    gone, not only the first, every other record stays, and
    [resolve k] on the new registry returns [None].  When the file is
    writable the call returns and the new registry is what the file
    holds; when the write is refused the registry in memory is the
    same, and the handler's lookup of the missing logger raises
    [AttributeError]. *)
Theorem delete_removes_every_match (σ : plugin) (k : string) :
  Forall has_keyword (shortcuts σ) →
  let σ' := (delete_shortcut k σ).2 in
  (delete_shortcut k σ).1 = (if disk_writable σ then Ret tt else Raise AttributeError)
  ∧ shortcuts σ' = List.filter (λ s, negb (keyword_is k s)) (shortcuts σ)
  ∧ Forall (λ s, s !! "keyword" ≠ Some (PStr k)) (shortcuts σ')
  ∧ (∀ s, In s (shortcuts σ) → s !! "keyword" ≠ Some (PStr k) → In s (shortcuts σ'))
  ∧ resolve (shortcuts σ') k = Ret None
  ∧ (disk_writable σ = true → disk σ' = FileJson (DocObject (Some (shortcuts σ')))).
Proof.
  intros Hreg σ'. subst σ'. rewrite (delete_shortcut_eq σ k Hreg).
  set (kept := List.filter _ _).
  rewrite save_shortcuts_outcome, save_shortcuts_keeps. cbn [shortcuts disk_writable].
  assert (Hgone : Forall (λ s, s !! "keyword" ≠ Some (PStr k)) kept).
  { apply List.Forall_forall. intros s [_ Hs]%List.filter_In.
    apply negb_true_iff in Hs. by apply bool_decide_eq_false in Hs. }
  assert (Hkw : Forall has_keyword kept).
  { apply List.Forall_forall. intros s [Hs _]%List.filter_In.
    by apply (proj1 (List.Forall_forall _ _) Hreg). }
  repeat split; try done.
  - intros s Hin Hs. apply List.filter_In. split; [done|].
    apply negb_true_iff. by apply bool_decide_eq_false.
  - rewrite (resolve_head_filter kept k Hkw), filter_none_nil; [done|].
    eapply Forall_impl; [exact Hgone|]. intros r Hr. by apply bool_decide_eq_false.
  - intros Hw. unfold save_shortcuts, try_except, json_dump_shortcuts. cbn.
    by rewrite Hw.
Qed.

(** ** Persistence *)

(** C5. [load_shortcuts] returns the sequence stored under
    [shortcuts] when the file parses to an object that has it, and the
    empty sequence when the file is absent or the object has no such
    member.  When the file cannot be read, is not JSON or holds a
    value that is not an object, the exception reaches the handler,
    whose lookup of the missing logger raises [AttributeError]: the
    call does not return the empty sequence, it raises. *)
Theorem load_shortcuts_handler_raises (reg : list shortcut) (w : bool)
    (tr : list os_event) (lg : list log_entry) :
  let at_file (f : file_state) := load_shortcuts (Plugin reg f w tr lg) in
  at_file FileMalformed = (Raise AttributeError, Plugin reg FileMalformed w tr lg)
  ∧ at_file FileUnreadable = (Raise AttributeError, Plugin reg FileUnreadable w tr lg)
  ∧ at_file (FileJson DocOther)
    = (Raise AttributeError, Plugin reg (FileJson DocOther) w tr lg)
  ∧ at_file FileAbsent = (Ret [], Plugin reg FileAbsent w tr lg)
  ∧ at_file (FileJson (DocObject None))
    = (Ret [], Plugin reg (FileJson (DocObject None)) w tr lg)
  ∧ (∀ l, at_file (FileJson (DocObject (Some l)))
          = (Ret l, Plugin reg (FileJson (DocObject (Some l))) w tr lg)).
Proof. by repeat split. Qed.

(** C8. Loading a file that holds an object with a [shortcuts] sequence
    and saving at once leaves a file that parses to an object with the
    same sequence of records under [shortcuts]: rewritten when the
    file is writable, untouched when the write is refused (the call
    then ends in the [AttributeError] of the handler).  Records are
    dicts, so the order of their fields plays no part in the
    comparison. *)
Theorem load_save_round_trip (σ : plugin) (l : list shortcut) :
  disk σ = FileJson (DocObject (Some l)) →
  let σ' := (load_then_save σ).2 in
  (load_then_save σ).1 = (if disk_writable σ then Ret tt else Raise AttributeError)
  ∧ shortcuts σ' = l
  ∧ (data ← json_load (disk σ'); data_get_shortcuts data) = Ret l
  ∧ (load_shortcuts σ').1 = Ret l.
Proof.
  intros Hdisk. unfold load_then_save, init. cbn.
  unfold mbind, act_bind, load_shortcuts, try_except, lift, set_shortcuts.
  rewrite Hdisk. cbn.
  unfold save_shortcuts, try_except, json_dump_shortcuts, logger_error. cbn.
  destruct (disk_writable σ); cbn; by rewrite ?Hdisk.
Qed.

(** ** Execution *)

Lemma resolve_some (reg : list shortcut) (k : string) (s : shortcut) :
  resolve reg k = Ret (Some s) → In s reg ∧ s !! "keyword" = Some (PStr k).
Proof.
  induction reg as [|r rest IH]; [discriminate|].
  cbn [resolve]. unfold subscript. destruct (r !! "keyword") as [v|] eqn:Hv; [|discriminate].
  cbn. destruct (py_eq v (PStr k)) eqn:E.
  - intros [= <-]. apply py_eq_str in E as ->. split; [by left | done].
  - intros H. destruct (IH H) as [Hin Hs]. split; [by right | done].
Qed.

Lemma dict_truthy_lookup (s : shortcut) (key : string) (v : pyval) :
  s !! key = Some v → dict_truthy s = true.
Proof.
  intros Hs. unfold dict_truthy. apply negb_true_iff, bool_decide_eq_false.
  intros ->. by rewrite lookup_empty in Hs.
Qed.

Section HostProperties.
Variable expandvars : string → string.
Variable os_refuses : os_event → bool.

Local Abbreviation execute := (execute_shortcut expandvars os_refuses).
Local Abbreviation launch_body := (launch expandvars os_refuses).

Lemma os_request_eq (ev : os_event) (σ : plugin) :
  os_request os_refuses ev σ
  = (if os_refuses ev then Raise OSError else Ret tt, with_events σ [ev]).
Proof.
  unfold os_request, emit, lift. cbn. unfold mbind, act_bind. cbn.
  by destruct (os_refuses ev).
Qed.

Lemma execute_found (σ : plugin) (k : string) (s : shortcut) :
  resolve (shortcuts σ) k = Ret (Some s) →
  execute k σ =
  try_except (launch_body s)
    (λ e, logger_error "Error executing shortcut" e;; mret false) σ.
Proof.
  intros Hres. unfold execute_shortcut. rewrite Hres.
  destruct (resolve_some _ _ _ Hres) as [_ Hk].
  by rewrite (dict_truthy_lookup s _ _ Hk).
Qed.

(** C9. When every record carries a keyword and none of them is [k],
    [execute_shortcut k] returns [False] and leaves the whole state
    as it was: no expansion of environment variables, no launch
    request, no write to the file, no log entry.  This holds in
    particular on the empty registry. *)
Theorem execute_not_found (k : string) :
  (∀ σ : plugin,
     Forall (λ s, has_keyword s ∧ s !! "keyword" ≠ Some (PStr k)) (shortcuts σ) →
     execute k σ = (Ret false, σ))
  ∧ (∀ σ : plugin, shortcuts σ = [] → execute k σ = (Ret false, σ)).
Proof.
  assert (H : ∀ σ : plugin,
    Forall (λ s, has_keyword s ∧ s !! "keyword" ≠ Some (PStr k)) (shortcuts σ) →
    execute k σ = (Ret false, σ)).
  { intros σ Hreg. unfold execute_shortcut.
    rewrite resolve_head_filter, filter_none_nil; [done| |].
    - eapply Forall_impl; [exact Hreg|]. intros s [_ Hs].
      by apply bool_decide_eq_false.
    - eapply Forall_impl; [exact Hreg|]. by intros s [Hs _]. }
  split; [exact H|]. intros σ Hnil. apply H. rewrite Hnil. constructor.
Qed.

Lemma with_events_app (σ : plugin) (a b : list os_event) :
  with_events (with_events σ a) b = with_events σ (a ++ b).
Proof. unfold with_events. cbn. by rewrite <- app_assoc. Qed.

Lemma launch_eq (σ : plugin) (s : shortcut) (p : string) :
  dict_get s "path" (PStr EmptyString) = PStr p →
  launch_body s σ =
  match dispatch os_refuses s (expandvars p) (with_events σ [Expandvars p]) with
  | (Ret _, σ') => (Ret true, σ')
  | (Raise e, σ') => (Raise e, σ')
  end.
Proof. intros Hp. unfold launch. by rewrite Hp. Qed.

(** What [execute_shortcut] amounts to when the [try] block issues
    the single request [call] after expanding the path [p]. *)
Lemma execute_request (σ : plugin) (k : string) (s : shortcut) (p : string)
    (call : os_event) :
  resolve (shortcuts σ) k = Ret (Some s) →
  dict_get s "path" (PStr EmptyString) = PStr p →
  (∀ τ, dispatch os_refuses s (expandvars p) τ = os_request os_refuses call τ) →
  execute k σ =
  (if os_refuses call then Raise AttributeError else Ret true,
   with_events σ [Expandvars p; call]).
Proof.
  intros Hres Hp Hd. rewrite (execute_found σ k s Hres).
  unfold try_except. rewrite (launch_eq σ s p Hp), Hd, os_request_eq, with_events_app.
  by destruct (os_refuses call).
Qed.

(** C2. For a record that [resolve] returns and whose path is a
    string, [execute_shortcut] expands the path and then issues
    exactly one request, chosen by the type of the record:
    [os.startfile] for [url] (and so neither of the [Popen] launches);
    [Popen] of the explorer command line for [folder]; for [file]
    (also the default when [type] is missing) [Popen] of the
    [openWith] program with the path as argument when [openWith] is a
    non-empty string and [os.startfile] when [openWith] is missing or
    falsy; [Popen] of the path itself for [app].  It returns [True]
    when the request is accepted; when it is refused the [OSError]
    reaches the handler, whose lookup of the missing logger raises
    [AttributeError].  Either way the request made is that one. *)
Theorem execute_dispatch (σ : plugin) (k : string) (s : shortcut) (p : string) :
  resolve (shortcuts σ) k = Ret (Some s) →
  dict_get s "path" (PStr EmptyString) = PStr p →
  let path := expandvars p in
  let issues (call : os_event) : Prop :=
    execute k σ =
    (if os_refuses call then Raise AttributeError else Ret true,
     with_events σ [Expandvars p; call]) in
  (s !! "type" = Some (PStr "url") → issues (Startfile path))
  ∧ (s !! "type" = Some (PStr "folder") →
     issues (Popen (Cmdline ("explorer " +:+ dquote +:+ path +:+ dquote))))
  ∧ (s !! "type" = Some (PStr "file") ∨ s !! "type" = None →
     ∀ program, s !! "openWith" = Some (PStr program) → program ≠ EmptyString →
     issues (Popen (Argv [program; path])))
  ∧ (s !! "type" = Some (PStr "file") ∨ s !! "type" = None →
     truthy (default PNone (s !! "openWith")) = false →
     issues (Startfile path))
  ∧ (s !! "type" = Some (PStr "app") → issues (Popen (Cmdline path))).
Proof.
  intros Hres Hp path issues. subst issues path. cbn beta.
  repeat split.
  - intros Ht. apply (execute_request σ k s p _ Hres Hp).
    intros τ. unfold dispatch, dict_get. by rewrite Ht.
  - intros Ht. apply (execute_request σ k s p _ Hres Hp).
    intros τ. unfold dispatch, dict_get. by rewrite Ht.
  - intros Ht program How Hne. apply (execute_request σ k s p _ Hres Hp).
    intros τ. unfold dispatch, dict_get. rewrite How.
    assert (truthy (PStr program) = true) as Htr.
    { cbn. apply negb_true_iff, String.eqb_neq. exact Hne. }
    destruct Ht as [-> | ->]; cbn -[truthy os_request]; by rewrite Htr.
  - intros Ht How. apply (execute_request σ k s p _ Hres Hp).
    intros τ. unfold dispatch, dict_get.
    destruct Ht as [-> | ->]; cbn -[truthy os_request]; by rewrite How.
  - intros Ht. apply (execute_request σ k s p _ Hres Hp).
    intros τ. unfold dispatch, dict_get. by rewrite Ht.
Qed.
End HostProperties.

(** ** Queries by keyword *)

Lemma lstrip_blank (s : string) : lstrip s = EmptyString ↔ blank s = true.
Proof.
  induction s as [|c s IH]; [done|]. cbn. destruct (isspace c); [exact IH|].
  split; discriminate.
Qed.

Lemma lstrip_idemp (s : string) : lstrip (lstrip s) = lstrip s.
Proof.
  induction s as [|c s IH]; [done|]. cbn. destruct (isspace c) eqn:E; [exact IH|].
  cbn. by rewrite E.
Qed.

Lemma blank_rev_app (s acc : string) :
  blank (String.rev_app s acc) = blank s && blank acc.
Proof.
  revert acc. induction s as [|c s IH]; intros acc; [done|].
  cbn. rewrite IH. cbn. by destruct (isspace c), (blank s), (blank acc).
Qed.

Lemma rev_app_empty (s acc : string) :
  String.rev_app s acc = EmptyString → s = EmptyString ∧ acc = EmptyString.
Proof.
  revert acc. induction s as [|c s IH]; intros acc; [done|].
  cbn. intros H. by destruct (IH _ H) as [_ ?].
Qed.

Lemma strip_blank (s : string) : strip s = EmptyString ↔ blank s = true.
Proof.
  unfold strip, rstrip, String.rev. split.
  - intros H. apply rev_app_empty in H as [H _].
    apply lstrip_blank in H. rewrite blank_rev_app, andb_true_r in H.
    apply lstrip_blank in H. rewrite lstrip_idemp in H. by apply lstrip_blank.
  - intros H. apply lstrip_blank in H. by rewrite H.
Qed.

Lemma lower_empty (s : string) : lower s = EmptyString → s = EmptyString.
Proof. by destruct s. Qed.

Lemma mapM_Ret {A B} (f : A → outcome B) (l : list A) :
  Forall (λ x, ∃ y, f x = Ret y) l →
  ∃ ys, mapM f l = Ret ys ∧ Forall2 (λ x y, f x = Ret y) l ys.
Proof.
  induction 1 as [|x l [y Hy] _ (ys & Hys & Hall)].
  - exists []. by split; [|constructor].
  - exists (y :: ys). cbn. rewrite Hy. cbn. rewrite Hys. cbn.
    split; [done|]. by constructor.
Qed.

Lemma format_shortcut_result_Ret (s : shortcut) :
  has_keyword s → ∃ r, format_shortcut_result s = Ret r.
Proof.
  intros [k Hk]. unfold format_shortcut_result, subscript. rewrite Hk. cbn. eauto.
Qed.

Lemma search_by_keyword_filter (text : string) (reg : list shortcut) :
  lower text ≠ EmptyString →
  Forall (λ s, opt_str (s !! "keyword") = true) reg →
  search_by_keyword text reg
  = mapM format_shortcut_result (List.filter (keyword_matches text) reg).
Proof.
  intros Htext. induction 1 as [|s rest Hs _ IH]; [reflexivity|].
  cbn [search_by_keyword List.filter]. unfold keyword_matches at 1, dict_get.
  destruct (s !! "keyword") as [[| | |k]|]; try discriminate; cbn.
  - destruct (String.eqb (lower text) (lower k)); [|exact IH].
    cbn. by rewrite IH.
  - destruct (String.eqb_spec (lower text) EmptyString); [done | exact IH].
Qed.

Lemma query_search (σ : plugin) (text : string) :
  lower text ≠ "list" → strip text ≠ EmptyString →
  query σ text = search_by_keyword text (shortcuts σ).
Proof.
  intros Hl Hs. unfold query.
  destruct (String.eqb_spec (lower text) "list"); [done|].
  by destruct (String.eqb_spec (strip text) EmptyString).
Qed.

(** C10, amended. For an ASCII text that has a character other than
    whitespace and does not lowercase to [list], on a registry whose
    keywords (where present) are ASCII strings, [query] returns the
    formatted entry of every record whose keyword equals the text up
    to case, one per record and in registry order, duplicates
    included; [resolve] on the same registry returns only the first
    record with the exact keyword. *)
Theorem query_returns_every_match (σ : plugin) (text : string) :
  ascii_text text = true →
  Forall (λ s, ascii_keyword s = true) (shortcuts σ) →
  strip text ≠ EmptyString →
  lower text ≠ "list" →
  Forall (λ s, opt_str (s !! "keyword") = true) (shortcuts σ) →
  ∃ results,
    query σ text = Ret results
    ∧ Forall2 (λ s r, format_shortcut_result s = Ret r)
        (List.filter (keyword_matches text) (shortcuts σ)) results
    ∧ (Forall has_keyword (shortcuts σ) →
       resolve (shortcuts σ) text
       = Ret (head (List.filter (keyword_is text) (shortcuts σ)))).
Proof.
  intros _ _ Hs Hl Hreg.
  assert (Htext : lower text ≠ EmptyString).
  { intros H. apply lower_empty in H. by subst text. }
  destruct (mapM_Ret format_shortcut_result
              (List.filter (keyword_matches text) (shortcuts σ))) as (rs & Hrs & Hall).
  { apply List.Forall_forall. intros s [_ Hm]%List.filter_In.
    apply format_shortcut_result_Ret. unfold keyword_matches in Hm.
    unfold has_keyword. by destruct (s !! "keyword"). }
  exists rs. split; [|split; [exact Hall | apply resolve_head_filter]].
  by rewrite (query_search σ text Hl Hs), (search_by_keyword_filter text _ Htext Hreg).
Qed.

(** C7, amended. [query] dispatches on its ASCII text: a text that
    lowercases to [list] gives the listing by category; any other
    text with at least one character that is not whitespace gives the
    search by keyword, which lowercases the text and each stored
    (ASCII) keyword; a text that is empty or all whitespace gives the
    single help entry. *)
Theorem query_dispatch (σ : plugin) (text : string) :
  ascii_text text = true →
  (lower text = "list" → query σ text = show_shortcut_list σ)
  ∧ (lower text ≠ "list" → blank text = false →
     Forall (λ s, ascii_keyword s = true) (shortcuts σ) →
     query σ text = search_by_keyword text (shortcuts σ))
  ∧ (blank text = true → query σ text = Ret [help_item])
  ∧ query σ EmptyString = Ret [help_item].
Proof.
  intros _. repeat split.
  - intros H. unfold query. by rewrite H.
  - intros Hl Hb _. apply query_search; [done|].
    intros H%strip_blank. congruence.
  - intros Hb. unfold query.
    destruct (String.eqb_spec (lower text) "list") as [E|_].
    + exfalso. destruct text as [|c text]; [discriminate|].
      cbn in Hb, E. apply andb_true_iff in Hb as [Hc _].
      injection E as Ec _. revert Hc Ec. unfold isspace, lower_char.
      destruct c as [[] [] [] [] [] [] [] []]; vm_compute; congruence.
    + apply strip_blank in Hb. by rewrite Hb.
Qed.

(** C7 as stated fails: the text made of one space is not empty and is
    not [list], yet [query] answers it with the help entry instead of
    searching the registry by keyword, which here would have returned
    the entry of the record whose keyword is that space. *)
Lemma query_blank_text_not_searched :
  ¬ (∀ (σ : plugin) (text : string),
       text ≠ EmptyString → lower text ≠ "list" →
       query σ text = search_by_keyword text (shortcuts σ)).
Proof.
  intros H.
  specialize (H (plugin_of [record [("keyword", PStr " "); ("name", PStr "Blank")]]) " ").
  assert (E : " " ≠ EmptyString) by discriminate.
  assert (L : lower " " ≠ "list") by discriminate.
  specialize (H E L). vm_compute in H. discriminate H.
Qed.

(** ** Sorting *)

Section SortFacts.
Context {A : Type} (ltb : A → A → bool).

Lemma In_insert_pure (x z : A) (l : list A) :
  In z (insert_pure ltb x l) ↔ z = x ∨ In z l.
Proof.
  induction l as [|y l IH]; cbn; [intuition congruence|].
  destruct (ltb y x); cbn; [rewrite IH|]; intuition congruence.
Qed.

Lemma In_isort (z : A) (l : list A) : In z (isort ltb l) ↔ In z l.
Proof.
  induction l as [|x l IH]; cbn; [done|].
  rewrite In_insert_pure, IH. intuition congruence.
Qed.

Context (lt : A → A → outcome bool).

Lemma insert_sorted_pure (x : A) (l : list A) :
  (∀ y, In y l → lt y x = Ret (ltb y x)) →
  insert_sorted lt x l = Ret (insert_pure ltb x l).
Proof.
  induction l as [|y l IH]; intros Hlt; [reflexivity|].
  cbn. rewrite (Hlt y) by by left. cbn.
  destruct (ltb y x); [|reflexivity].
  rewrite IH; [reflexivity|]. intros z Hz. apply Hlt. by right.
Qed.

Lemma sorted_pure (l : list A) :
  (∀ x y, In x l → In y l → lt x y = Ret (ltb x y)) →
  sorted lt l = Ret (isort ltb l).
Proof.
  induction l as [|x l IH]; intros Hlt; [reflexivity|].
  cbn. rewrite IH by (intros; apply Hlt; by right). cbn.
  apply insert_sorted_pure. intros y Hy. apply (proj1 (In_isort y l)) in Hy.
  apply Hlt; [by right | by left].
Qed.

(** The output is ordered: no element is strictly below one that
    comes before it. *)
Lemma isort_StronglySorted (l : list A) :
  (∀ a b, ltb a b = true → ltb b a = false) →
  (∀ a b c, ltb b a = false → ltb c b = false → ltb c a = false) →
  StronglySorted (λ a b, ltb b a = false) (isort ltb l).
Proof.
  intros Hasym Htrans. induction l as [|x l IH]; cbn; [constructor|].
  induction IH as [|y l' Hl' IH' Hy]; cbn; [repeat constructor|].
  destruct (ltb y x) eqn:E.
  - constructor; [exact IH'|]. apply List.Forall_forall.
    intros z [-> | Hz]%In_insert_pure; [by apply Hasym|].
    by apply (proj1 (List.Forall_forall _ _) Hy).
  - constructor; [by constructor|]. constructor; [exact E|].
    eapply Forall_impl; [exact Hy|]. intros z Hz. by apply (Htrans x y z).
Qed.

(** The sort is stable: elements that the order does not separate
    keep their relative positions. *)
Lemma filter_insert_pure (P : A → bool) (x : A) (l : list A) :
  (∀ a b, P a = true → P b = true → ltb a b = false) →
  List.filter P (insert_pure ltb x l) = List.filter P (x :: l).
Proof.
  intros HP. induction l as [|y l IH]; [reflexivity|].
  cbn [insert_pure]. destruct (ltb y x) eqn:E; [|reflexivity].
  cbn [List.filter] in *. rewrite IH.
  destruct (P y) eqn:Py; [|reflexivity].
  destruct (P x) eqn:Px; [|reflexivity].
  rewrite (HP y x Py Px) in E. discriminate.
Qed.

Lemma filter_isort (P : A → bool) (l : list A) :
  (∀ a b, P a = true → P b = true → ltb a b = false) →
  List.filter P (isort ltb l) = List.filter P l.
Proof.
  intros HP. induction l as [|x l IH]; [reflexivity|].
  cbn [isort]. rewrite (filter_insert_pure P x _ HP). cbn. by rewrite IH.
Qed.
End SortFacts.

(** ** Grouping by category *)

Lemma valid_shortcut_fields (s : shortcut) :
  valid_shortcut s = true →
  (∃ k, s !! "keyword" = Some (PStr k))
  ∧ (∃ c, category_of s = PStr c)
  ∧ (∃ z, priority_of s = PInt z).
Proof.
  unfold valid_shortcut, category_of, priority_of, dict_get.
  rewrite !andb_true_iff. intros [[[[[[[Hk _] _] _] Hc] Hp] _] _].
  repeat split.
  - destruct (s !! "keyword") as [[]|]; try discriminate. eauto.
  - destruct (s !! "category") as [[]|]; try discriminate; cbn; eauto.
  - destruct (s !! "priority") as [[]|]; try discriminate; cbn; eauto.
Qed.

Lemma valid_registry_Forall (reg : list shortcut) :
  valid_registry reg = true → Forall (λ s, valid_shortcut s = true) reg.
Proof.
  unfold valid_registry. rewrite List.forallb_forall. intros H.
  by apply List.Forall_forall.
Qed.

Lemma filter_snoc {A} (f : A → bool) (l : list A) (x : A) :
  List.filter f (l ++ [x]) = List.filter f l ++ (if f x then [x] else []).
Proof. by rewrite List.filter_app. Qed.

Section Grouping.
Variables (reg : list shortcut) (s : shortcut) (c : string).
Hypothesis Hc : category_of s = PStr c.

Lemma py_eq_str_false (v : pyval) : py_eq v (PStr c) = false → v ≠ PStr c.
Proof.
  intros E ->. assert (py_eq (PStr c) (PStr c) = true) by by apply py_eq_str.
  congruence.
Qed.

Lemma categories_append_keys (G : list (pyval * list shortcut)) :
  map fst (categories_append G (PStr c) s)
  = if decide (PStr c ∈ map fst G) then map fst G else map fst G ++ [PStr c].
Proof.
  induction G as [|[c1 l1] G IH]; cbn [categories_append map fst].
  - destruct (decide _) as [i|]; [|done]. by apply elem_of_nil in i.
  - destruct (py_eq c1 (PStr c)) eqn:E.
    + apply py_eq_str in E as ->. clear IH. cbn.
      destruct (decide _) as [|n]; [done|]. destruct n. by left.
    + cbn. rewrite IH. apply py_eq_str_false in E. clear IH.
      destruct (decide (PStr c ∈ map fst G)) as [i|n];
        destruct (decide (PStr c ∈ c1 :: map fst G)) as [i'|n']; try done.
      * destruct n'. by right.
      * apply elem_of_cons in i' as [?|?]; [congruence | contradiction].
Qed.

Lemma categories_append_members (G : list (pyval * list shortcut)) :
  NoDup (map fst G) →
  Forall (λ g, g.2 = List.filter (has_category g.1) reg ∧ g.2 ≠ []) G →
  (PStr c ∉ map fst G → List.filter (has_category (PStr c)) reg = []) →
  Forall (λ g, g.2 = List.filter (has_category g.1) (reg ++ [s]) ∧ g.2 ≠ [])
    (categories_append G (PStr c) s).
Proof.
  assert (Hs : has_category (PStr c) s = true).
  { unfold has_category. by apply bool_decide_eq_true. }
  assert (Hother : ∀ c', c' ≠ PStr c → has_category c' s = false).
  { intros c' Hne. unfold has_category. apply bool_decide_eq_false. congruence. }
  induction G as [|[c1 l1] G IH]; cbn [categories_append map fst];
    intros Hnd HG Hnew.
  - constructor; [|constructor]. cbn. rewrite filter_snoc, Hs, Hnew; [done|].
    apply not_elem_of_nil.
  - apply NoDup_cons in Hnd as [Hc1 Hnd].
    apply Forall_cons in HG as [[Hl1 Hne1] HG]. cbn in Hl1, Hne1.
    destruct (py_eq c1 (PStr c)) eqn:E.
    + apply py_eq_str in E as ->. constructor.
      * cbn. rewrite filter_snoc, Hs, Hl1. split; [done|].
        by destruct (List.filter _ reg).
      * apply List.Forall_forall. intros g Hg.
        destruct (proj1 (List.Forall_forall _ _) HG g Hg) as [Hg1 Hg2].
        split; [|done]. rewrite filter_snoc, Hother, app_nil_r; [done|].
        intros Heq. apply Hc1. rewrite <- Heq.
        apply list_elem_of_In. by apply List.in_map.
    + apply py_eq_str_false in E. constructor.
      * cbn. split; [|done]. by rewrite filter_snoc, (Hother c1 E), app_nil_r.
      * apply IH; [done | done |]. intros Hn. apply Hnew.
        intros [?|?]%elem_of_cons; [congruence | contradiction].
Qed.

Lemma grouped_snoc (G : list (pyval * list shortcut)) :
  grouped reg G → grouped (reg ++ [s]) (categories_append G (category_of s) s).
Proof.
  intros (Hnd & HG & Hall). rewrite Hc.
  assert (Hnew : PStr c ∉ map fst G →
                 List.filter (has_category (PStr c)) reg = []).
  { intros Hn. apply filter_none_nil, List.Forall_forall. intros r Hr.
    apply bool_decide_eq_false. intros Heq. apply Hn. rewrite <- Heq. by apply Hall. }
  split; [|split].
  - rewrite categories_append_keys. destruct (decide _) as [|n]; [done|].
    apply NoDup_app. split; [done|]. split; [|apply NoDup_singleton].
    by intros x Hx ->%list_elem_of_singleton.
  - by apply categories_append_members.
  - intros r Hr. rewrite categories_append_keys.
    apply List.in_app_or in Hr as [Hr | [<- | []]].
    + destruct (decide _); [by apply Hall|]. apply elem_of_app. left. by apply Hall.
    + rewrite Hc. destruct (decide _); [done|]. apply elem_of_app. right.
      by apply list_elem_of_singleton.
Qed.
End Grouping.

Lemma group_by_category_grouped (reg : list shortcut) :
  Forall (λ s, valid_shortcut s = true) reg →
  grouped reg (group_by_category reg).
Proof.
  unfold group_by_category.
  induction reg as [|s reg IH] using rev_ind; intros Hreg.
  - split; [constructor | split; [constructor | by intros r []]].
  - apply Forall_app in Hreg as [Hreg Hs]. apply Forall_cons in Hs as [Hs _].
    destruct (valid_shortcut_fields s Hs) as (_ & [c Hc] & _).
    rewrite fold_left_app. cbn. by eapply grouped_snoc; [exact Hc | apply IH].
Qed.

(** ** The orders of the two sorts *)

Lemma string_ltb_leb (a b : string) : String.ltb a b = negb (String.leb b a).
Proof.
  unfold String.ltb, String.leb. rewrite (String.compare_antisym a b).
  by destruct (String.compare b a).
Qed.

Lemma string_ltb_asym (a b : string) : String.ltb a b = true → String.ltb b a = false.
Proof.
  unfold String.ltb. rewrite (String.compare_antisym a b).
  by destruct (String.compare b a).
Qed.

Lemma string_ltb_negtrans (a b c : string) :
  String.ltb b a = false → String.ltb c b = false → String.ltb c a = false.
Proof.
  rewrite !string_ltb_leb, !negb_false_iff. intros Hab Hbc.
  apply Is_true_true. apply Is_true_true in Hab, Hbc.
  exact (transitivity (R := String.le) Hab Hbc).
Qed.

Lemma string_ltb_total (a b : string) :
  String.ltb b a = false → a ≠ b → String.ltb a b = true.
Proof.
  unfold String.ltb. rewrite (String.compare_antisym b a).
  destruct (String.compare a b) eqn:E; try done.
  intros _ Hne. by apply String.compare_eq_iff in E.
Qed.

Lemma insert_pure_Permutation {A} (ltb : A → A → bool) (x : A) (l : list A) :
  insert_pure ltb x l ≡ₚ x :: l.
Proof.
  induction l as [|y l IH]; [done|]. cbn. destruct (ltb y x); [|done].
  rewrite IH. apply Permutation_swap.
Qed.

Lemma isort_Permutation {A} (ltb : A → A → bool) (l : list A) : isort ltb l ≡ₚ l.
Proof.
  induction l as [|x l IH]; [done|]. cbn. by rewrite insert_pure_Permutation, IH.
Qed.

Lemma py_sorted_items (G : list (pyval * list shortcut)) :
  Forall (λ g, ∃ c, g.1 = PStr c) G →
  py_sorted fst false G = Ret (isort item_ltb G).
Proof.
  intros HG. apply sorted_pure. intros x y Hx Hy.
  destruct (proj1 (List.Forall_forall _ _) HG x Hx) as [cx Ex].
  destruct (proj1 (List.Forall_forall _ _) HG y Hy) as [cy Ey].
  unfold item_ltb. by rewrite Ex, Ey.
Qed.

Lemma py_sorted_members (ms : list shortcut) :
  Forall (λ s, valid_shortcut s = true) ms →
  py_sorted priority_of true ms = Ret (isort priority_gtb ms).
Proof.
  intros Hms. apply sorted_pure. intros x y Hx Hy.
  destruct (valid_shortcut_fields x (proj1 (List.Forall_forall _ _) Hms x Hx))
    as (_ & _ & [zx Ex]).
  destruct (valid_shortcut_fields y (proj1 (List.Forall_forall _ _) Hms y Hy))
    as (_ & _ & [zy Ey]).
  unfold priority_gtb, priority_number. by rewrite Ex, Ey.
Qed.

Lemma StronglySorted_weaken {A} (R1 R2 : A → A → Prop) (l : list A) :
  (∀ a b, R1 a b → R2 a b) → StronglySorted R1 l → StronglySorted R2 l.
Proof.
  intros HR. induction 1 as [|a l _ IH Ha]; constructor; [exact IH|].
  eapply Forall_impl; [exact Ha|]. intros b. apply HR.
Qed.

Lemma isort_priority_sorted (ms : list shortcut) :
  StronglySorted (λ a b, priority_number b ≤ priority_number a) (isort priority_gtb ms).
Proof.
  eapply StronglySorted_weaken;
    [|apply (isort_StronglySorted priority_gtb); unfold priority_gtb; intros; lia].
  intros a b. unfold priority_gtb. lia.
Qed.

Lemma isort_priority_stable (p : pyval) (ms : list shortcut) :
  List.filter (has_priority p) (isort priority_gtb ms) = List.filter (has_priority p) ms.
Proof.
  apply filter_isort. intros a b Ha Hb. unfold has_priority in Ha, Hb.
  apply bool_decide_eq_true in Ha, Hb. unfold priority_gtb, priority_number.
  rewrite Ha, Hb. lia.
Qed.

Lemma items_strictly_ascending (l : list (pyval * list shortcut)) :
  Forall (λ g, ∃ c, g.1 = PStr c) l →
  NoDup (map fst l) →
  StronglySorted (λ a b, item_ltb b a = false) l →
  StronglySorted (λ a b, py_lt a b = Ret true) (map fst l).
Proof.
  intros Htext Hnd Hs.
  induction Hs as [|a l Hs IH Ha]; cbn; [constructor|].
  apply Forall_cons in Htext as [[ca Eca] Htext].
  apply NoDup_cons in Hnd as [Hnotin Hnd].
  constructor; [by apply IH|].
  apply List.Forall_map, List.Forall_forall. intros b Hb.
  destruct (proj1 (List.Forall_forall _ _) Htext b Hb) as [cb Ecb].
  pose proof (proj1 (List.Forall_forall _ _) Ha b Hb) as Hba.
  unfold item_ltb in Hba. rewrite Eca, Ecb in *. cbn in *.
  rewrite (string_ltb_total ca cb Hba); [done|].
  intros ->. apply Hnotin. rewrite <- Ecb. apply list_elem_of_In. by apply List.in_map.
Qed.

(** ** Listing by category *)

Lemma mapM_map_ext {A B C} (f : A → outcome C) (g : B → outcome C) (h : A → B)
    (l : list A) :
  (∀ x, In x l → f x = g (h x)) → mapM f l = mapM g (map h l).
Proof.
  induction l as [|x l IH]; intros Hext; [reflexivity|].
  cbn. rewrite (Hext x) by by left. rewrite IH; [reflexivity|].
  intros y Hy. apply Hext. by right.
Qed.

Lemma filter_filter_andb {A} (f g : A → bool) (l : list A) :
  List.filter f (List.filter g l) = List.filter (λ x, g x && f x) l.
Proof.
  induction l as [|x l IH]; [reflexivity|]. cbn.
  destruct (g x); cbn; [|exact IH]. by rewrite IH.
Qed.

Lemma render_group_Ret (g : pyval * list shortcut) :
  Forall has_keyword g.2 → ∃ block, render_group g = Ret block.
Proof.
  intros Hg. unfold render_group.
  destruct (mapM_Ret format_shortcut_result g.2) as (entries & -> & _); [|cbn; eauto].
  eapply Forall_impl; [exact Hg|]. apply format_shortcut_result_Ret.
Qed.

Lemma valid_has_keyword (s : shortcut) : valid_shortcut s = true → has_keyword s.
Proof.
  intros Hs. destruct (valid_shortcut_fields s Hs) as ([k Hk] & _).
  unfold has_keyword. by rewrite Hk.
Qed.

(** The groups in display order, for a registry of valid records. *)
Lemma show_shortcut_list_render (σ : plugin) :
  Forall (λ s, valid_shortcut s = true) (shortcuts σ) →
  let items := isort item_ltb (group_by_category (shortcuts σ)) in
  Forall (λ g, g.2 = List.filter (has_category g.1) (shortcuts σ) ∧ g.2 ≠ []) items
  ∧ Forall (λ g, ∃ c, g.1 = PStr c) items
  ∧ NoDup (map fst items)
  ∧ show_shortcut_list σ = render (display_groups (shortcuts σ)).
Proof.
  intros Hreg items.
  destruct (group_by_category_grouped _ Hreg) as (Hnd & HG & Hall).
  assert (Hitems : Forall (λ g, g.2 = List.filter (has_category g.1) (shortcuts σ)
                                ∧ g.2 ≠ []) items).
  { apply List.Forall_forall. intros g Hg%In_isort.
    by apply (proj1 (List.Forall_forall _ _) HG). }
  assert (Hvalid : ∀ g r, In g items → In r g.2 → valid_shortcut r = true).
  { intros g r Hg Hr. destruct (proj1 (List.Forall_forall _ _) Hitems g Hg) as [E _].
    rewrite E in Hr. apply List.filter_In in Hr as [Hr _].
    by apply (proj1 (List.Forall_forall _ _) Hreg). }
  assert (Htext : ∀ g, In g items → ∃ c, g.1 = PStr c).
  { intros g Hg. destruct (proj1 (List.Forall_forall _ _) Hitems g Hg) as [E Hne].
    destruct g.2 as [|r ms] eqn:Eg; [done|].
    assert (In r (List.filter (has_category g.1) (shortcuts σ))) as Hr
      by (rewrite <- E; by left).
    apply List.filter_In in Hr as [Hr Hcat].
    apply bool_decide_eq_true in Hcat. rewrite <- Hcat.
    by destruct (valid_shortcut_fields r (proj1 (List.Forall_forall _ _) Hreg r Hr))
      as (_ & ? & _). }
  split; [exact Hitems|]. split; [by apply List.Forall_forall|].
  split; [unfold items; by rewrite isort_Permutation|].
  unfold show_shortcut_list, render.
  rewrite py_sorted_items.
  2:{ apply List.Forall_forall. intros g Hg. apply Htext. by apply In_isort. }
  cbn. fold items. unfold display_groups. fold items.
  rewrite <- (mapM_map_ext show_category render_group); [reflexivity|].
  intros g Hg. unfold show_category, render_group.
  rewrite py_sorted_members.
  2:{ apply List.Forall_forall. intros r Hr. by apply (Hvalid g r). }
  cbn. by rewrite (Permutation_length (isort_Permutation priority_gtb g.2)).
Qed.

Lemma display_groups_members (reg : list shortcut) (c : pyval) (ms : list shortcut) :
  Forall (λ s, valid_shortcut s = true) reg →
  In (c, ms) (display_groups reg) →
  ms = isort priority_gtb (List.filter (has_category c) reg)
  ∧ List.filter (has_category c) reg ≠ [].
Proof.
  intros Hreg (g & [= <- <-] & Hg)%List.in_map_iff.
  destruct (show_shortcut_list_render (plugin_of reg) Hreg) as (Hitems & _).
  destruct (proj1 (List.Forall_forall _ _) Hitems g Hg) as [E Hne].
  cbn in E. by rewrite <- E.
Qed.

Lemma show_shortcut_list_Ret (σ : plugin) :
  Forall (λ s, valid_shortcut s = true) (shortcuts σ) →
  ∃ results,
    show_shortcut_list σ = Ret results
    ∧ render (display_groups (shortcuts σ)) = Ret results.
Proof.
  intros Hreg. destruct (show_shortcut_list_render σ Hreg) as (_ & _ & _ & ->).
  unfold render.
  destruct (mapM_Ret render_group (display_groups (shortcuts σ)))
    as (blocks & -> & _); [|cbn; eauto].
  apply List.Forall_forall. intros [c ms] Hg. apply render_group_Ret. cbn.
  destruct (display_groups_members _ c ms Hreg Hg) as [-> _]. apply List.Forall_forall.
  intros r [Hr _]%In_isort%List.filter_In. apply valid_has_keyword.
  by apply (proj1 (List.Forall_forall _ _) Hreg).
Qed.

(** C4. For every registry of valid records [show_shortcut_list]
    returns the rendering of groups such that: the group keys are the
    categories of the records ([Uncategorized] for a record without
    the field) in strictly ascending order; each group holds exactly
    the records of its category; the members of a group are in
    non-increasing order of priority; and the members with one
    priority are in their registry order.  On the registry of the
    scenario the groups are X = [b, a] and then Y = [c]. *)
Theorem list_by_category :
  (∀ σ : plugin,
     valid_registry (shortcuts σ) = true →
     ∃ (groups : list (pyval * list shortcut)) (results : list result_item),
       show_shortcut_list σ = Ret results
       ∧ render groups = Ret results
       ∧ StronglySorted (λ a b, py_lt a b = Ret true) (map fst groups)
       ∧ (∀ s, In s (shortcuts σ) → In (category_of s) (map fst groups))
       ∧ (∀ c ms, In (c, ms) groups →
            ms ≠ []
            ∧ (∀ s, In s ms ↔ In s (shortcuts σ) ∧ category_of s = c)
            ∧ StronglySorted (λ a b, priority_number b ≤ priority_number a) ms
            ∧ (∀ p, List.filter (has_priority p) ms
                    = List.filter (λ s, has_category c s && has_priority p s)
                        (shortcuts σ))))
  ∧ (∀ s : shortcut, s !! "category" = None → category_of s = PStr "Uncategorized")
  ∧ (∃ results,
       show_shortcut_list (plugin_of [scenario_a; scenario_b; scenario_c]) = Ret results
       ∧ render [(PStr "X", [scenario_b; scenario_a]); (PStr "Y", [scenario_c])]
         = Ret results).
Proof.
  split; [|split].
  - intros σ Hreg%valid_registry_Forall.
    destruct (show_shortcut_list_render σ Hreg) as (Hitems & Htext & Hnd & _).
    destruct (group_by_category_grouped _ Hreg) as (_ & _ & Hall).
    destruct (show_shortcut_list_Ret σ Hreg) as (results & Hshow & Hrender).
    pose proof (display_groups_members (shortcuts σ)) as Hgroup.
    set (items := isort item_ltb (group_by_category (shortcuts σ))) in *.
    assert (Hkeys : map fst (display_groups (shortcuts σ)) = map fst items).
    { unfold display_groups. rewrite List.map_map. by apply List.map_ext. }
    exists (display_groups (shortcuts σ)), results.
    split; [done|]. split; [done|]. split; [|split].
    + rewrite Hkeys. apply items_strictly_ascending; [done | done |].
      apply (isort_StronglySorted item_ltb); unfold item_ltb; intros.
      * by apply string_ltb_asym.
      * by eapply string_ltb_negtrans.
    + intros r Hr. rewrite Hkeys. apply list_elem_of_In.
      eapply elem_of_Permutation_proper; [|by apply Hall].
      unfold items. apply Permutation_map, isort_Permutation.
    + intros c ms Hg. destruct (Hgroup c ms Hreg Hg) as [-> Hne].
      split; [|split; [|split]].
      * intros E. destruct (List.filter (has_category c) (shortcuts σ)) as [|r l];
          [done|].
        assert (In r (isort priority_gtb (r :: l))) as Hr by (apply In_isort; by left).
        by rewrite E in Hr.
      * intros r. rewrite In_isort, List.filter_In. unfold has_category.
        by rewrite bool_decide_eq_true.
      * apply isort_priority_sorted.
      * intros p. by rewrite isort_priority_stable, filter_filter_andb.
  - intros s Hs. unfold category_of, dict_get. by rewrite Hs.
  - eexists. split; reflexivity.
Qed.

(** ** Faults *)

Section Faults.
Variable expandvars : string → string.
Variable os_refuses : os_event → bool.

Local Abbreviation execute := (execute_shortcut expandvars os_refuses).
Local Abbreviation launch_body := (launch expandvars os_refuses).

(** C6. A failure inside [execute_shortcut] is not surfaced as
    [False]: for a record that [resolve] returns, whatever the [try]
    block raises, in the expansion of the path or in the launch,
    reaches the handler, and the handler's lookup of the missing
    logger raises [AttributeError], which leaves the method with the
    requests made so far. *)
Theorem execute_failure_escapes (σ : plugin) (k : string) (s : shortcut) (e : exn)
    (τ : plugin) :
  resolve (shortcuts σ) k = Ret (Some s) →
  launch_body s σ = (Raise e, τ) →
  execute k σ = (Raise AttributeError, τ).
Proof.
  intros Hres Hl. rewrite (execute_found expandvars os_refuses σ k s Hres).
  unfold try_except. by rewrite Hl.
Qed.
End Faults.

(** A record that lacks [keyword] makes [execute_shortcut],
    [show_shortcut_list] and [delete_shortcut] raise [KeyError]: the
    lookup of [execute_shortcut] is outside its [try] block and the
    other two have none. *)
Lemma keyword_missing_raises :
  execute_shortcut (λ p, p) (λ _, false) "notes" (plugin_of [nameless])
  = (Raise KeyError, plugin_of [nameless])
  ∧ show_shortcut_list (plugin_of [nameless]) = Raise KeyError
  ∧ query (plugin_of [nameless]) "list" = Raise KeyError
  ∧ delete_shortcut "notes" (plugin_of [nameless]) = (Raise KeyError, plugin_of [nameless]).
Proof. repeat split; reflexivity. Qed.

(** C10 as stated fails for a text that is not empty but blank: two
    records have the single space as keyword, and [query] on that text
    returns the help entry, not their two entries. *)
Lemma query_blank_keyword_not_matched :
  " " ≠ EmptyString
  ∧ lower " " ≠ "list"
  ∧ List.filter (keyword_matches " ") blank_registry = blank_registry
  ∧ query (plugin_of blank_registry) " " = Ret [help_item].
Proof. repeat split; try discriminate; reflexivity. Qed.

(** ** The model on malformed records

    Values of the wrong type raise where Python raises: a priority
    that is a string next to one that is a number cannot be sorted, a
    keyword that is a number has no [lower], and a path that is not a
    string fails inside the [try] block, whose handler then fails on
    the missing logger. *)

Example listing_mixed_priorities :
  show_shortcut_list
    (plugin_of [record [("keyword", PStr "a"); ("priority", PStr "high")];
                record [("keyword", PStr "b"); ("priority", PInt 1)]])
  = Raise TypeError.
Proof. reflexivity. Qed.

Example query_numeric_keyword :
  query (plugin_of [record [("keyword", PInt 7)]]) "seven" = Raise AttributeError.
Proof. reflexivity. Qed.

Example execute_numeric_path :
  execute_shortcut (λ p, p) (λ _, false) "n"
    (plugin_of [record [("keyword", PStr "n"); ("path", PInt 7)]])
  = (Raise AttributeError,
     plugin_of [record [("keyword", PStr "n"); ("path", PInt 7)]]).
Proof. reflexivity. Qed.

Example execute_refused :
  execute_shortcut (λ p, p) (λ _, true) "go" (plugin_of sample_registry)
  = (Raise AttributeError,
     with_events (plugin_of sample_registry)
       [Expandvars "https://example.org"; Startfile "https://example.org"]).
Proof. reflexivity. Qed.

Example resolve_is_case_sensitive :
  resolve sample_registry "notes" = Ret None
  ∧ resolve sample_registry "Notes" = Ret (Some sample_notes).
Proof. split; reflexivity. Qed.

(** ** The theorems at work on the sample registry *)

Lemma sample_registry_has_keyword : Forall has_keyword sample_registry.
Proof. repeat constructor; vm_compute; eauto. Defined.

Lemma resolve_first_match_witness :
  Forall has_keyword sample_registry
  ∧ resolve sample_registry "go" = Ret (Some sample_go).
Proof.
  split; [exact sample_registry_has_keyword|].
  destruct (resolve_first_match sample_registry "go" sample_registry_has_keyword)
    as [E _].
  rewrite E. reflexivity.
Defined.

Lemma execute_dispatch_witness :
  resolve sample_registry "docs" = Ret (Some sample_docs)
  ∧ dict_get sample_docs "path" (PStr EmptyString) = PStr "%USERPROFILE%\Documents"
  ∧ execute_shortcut (λ p, p) (λ _, false) "docs" (plugin_of sample_registry)
    = (Ret true,
       with_events (plugin_of sample_registry)
         [Expandvars "%USERPROFILE%\Documents";
          Popen (Cmdline ("explorer " +:+ dquote +:+ "%USERPROFILE%\Documents" +:+ dquote))]).
Proof.
  assert (H1 : resolve (shortcuts (plugin_of sample_registry)) "docs"
               = Ret (Some sample_docs)) by (reflexivity).
  assert (H2 : dict_get sample_docs "path" (PStr EmptyString)
               = PStr "%USERPROFILE%\Documents") by (reflexivity).
  split; [exact H1|]. split; [exact H2|].
  destruct (execute_dispatch (λ p, p) (λ _, false) (plugin_of sample_registry)
              "docs" sample_docs _ H1 H2) as (_ & Hfolder & _).
  apply Hfolder. reflexivity.
Defined.

Lemma delete_removes_every_match_witness :
  Forall has_keyword (shortcuts (plugin_of sample_registry))
  ∧ shortcuts (delete_shortcut "go" (plugin_of sample_registry)).2
    = [sample_docs; sample_notes].
Proof.
  split; [exact sample_registry_has_keyword|].
  destruct (delete_removes_every_match (plugin_of sample_registry) "go"
              sample_registry_has_keyword) as (_ & E & _).
  rewrite E. reflexivity.
Defined.

Lemma list_by_category_witness :
  valid_registry (shortcuts (plugin_of sample_registry)) = true
  ∧ ∃ results, show_shortcut_list (plugin_of sample_registry) = Ret results.
Proof.
  assert (H : valid_registry (shortcuts (plugin_of sample_registry)) = true)
    by (reflexivity).
  split; [exact H|].
  destruct (proj1 list_by_category (plugin_of sample_registry) H)
    as (groups & results & Hshow & _).
  exists results. exact Hshow.
Defined.

Lemma load_save_round_trip_witness :
  disk (Plugin [] (FileJson (DocObject (Some sample_registry))) true [] [])
  = FileJson (DocObject (Some sample_registry))
  ∧ disk (load_then_save
            (Plugin [] (FileJson (DocObject (Some sample_registry))) true [] [])).2
    = FileJson (DocObject (Some sample_registry)).
Proof.
  split; [reflexivity|].
  destruct (load_save_round_trip
              (Plugin [] (FileJson (DocObject (Some sample_registry))) true [] [])
              sample_registry eq_refl) as (_ & _ & _ & _).
  reflexivity.
Defined.

Lemma execute_not_found_witness :
  Forall (λ s, has_keyword s ∧ s !! "keyword" ≠ Some (PStr "missing"))
    (shortcuts (plugin_of sample_registry))
  ∧ execute_shortcut (λ p, p) (λ _, false) "missing" (plugin_of sample_registry)
    = (Ret false, plugin_of sample_registry).
Proof.
  assert (H : Forall (λ s, has_keyword s ∧ s !! "keyword" ≠ Some (PStr "missing"))
                (shortcuts (plugin_of sample_registry))).
  { repeat constructor; vm_compute; eauto; discriminate. }
  split; [exact H|].
  exact (proj1 (execute_not_found (λ p, p) (λ _, false) "missing")
           (plugin_of sample_registry) H).
Defined.

Lemma execute_failure_escapes_witness :
  resolve (shortcuts (plugin_of sample_registry)) "go" = Ret (Some sample_go)
  ∧ launch (λ p, p) (λ _, true) sample_go (plugin_of sample_registry)
    = (Raise OSError,
       with_events (plugin_of sample_registry)
         [Expandvars "https://example.org"; Startfile "https://example.org"])
  ∧ execute_shortcut (λ p, p) (λ _, true) "go" (plugin_of sample_registry)
    = (Raise AttributeError,
       with_events (plugin_of sample_registry)
         [Expandvars "https://example.org"; Startfile "https://example.org"]).
Proof.
  assert (H1 : resolve (shortcuts (plugin_of sample_registry)) "go"
               = Ret (Some sample_go)) by reflexivity.
  assert (H2 : launch (λ p, p) (λ _, true) sample_go (plugin_of sample_registry)
               = (Raise OSError,
                  with_events (plugin_of sample_registry)
                    [Expandvars "https://example.org"; Startfile "https://example.org"]))
    by reflexivity.
  split; [exact H1|]. split; [exact H2|].
  exact (execute_failure_escapes (λ p, p) (λ _, true) (plugin_of sample_registry)
           "go" sample_go OSError _ H1 H2).
Defined.

Lemma sample_registry_ascii :
  Forall (λ s, ascii_keyword s = true) (shortcuts (plugin_of sample_registry)).
Proof. repeat constructor. Defined.

Lemma query_dispatch_witness :
  ascii_text "LiSt" = true
  ∧ lower "LiSt" = "list"
  ∧ query (plugin_of sample_registry) "LiSt"
    = show_shortcut_list (plugin_of sample_registry).
Proof.
  split; [reflexivity|]. split; [reflexivity|].
  destruct (query_dispatch (plugin_of sample_registry) "LiSt" eq_refl) as (Hlist & _).
  apply Hlist. reflexivity.
Defined.

Lemma query_returns_every_match_witness :
  ascii_text "GO" = true
  ∧ Forall (λ s, ascii_keyword s = true) (shortcuts (plugin_of sample_registry))
  ∧ strip "GO" ≠ EmptyString
  ∧ lower "GO" ≠ "list"
  ∧ Forall (λ s, opt_str (s !! "keyword") = true) (shortcuts (plugin_of sample_registry))
  ∧ ∃ results,
      query (plugin_of sample_registry) "GO" = Ret results ∧ length results = 2%nat.
Proof.
  assert (H1 : strip "GO" ≠ EmptyString) by (vm_compute; discriminate).
  assert (H2 : lower "GO" ≠ "list") by (vm_compute; discriminate).
  assert (H3 : Forall (λ s, opt_str (s !! "keyword") = true)
                 (shortcuts (plugin_of sample_registry)))
    by (repeat constructor; reflexivity).
  split; [reflexivity|]. split; [exact sample_registry_ascii|].
  split; [exact H1|]. split; [exact H2|]. split; [exact H3|].
  destruct (query_returns_every_match (plugin_of sample_registry) "GO" eq_refl
              sample_registry_ascii H1 H2 H3)
    as (results & Hq & Hall & _).
  exists results. split; [exact Hq|].
  rewrite <- (Forall2_length _ _ _ Hall). reflexivity.
Defined.


(** * Further properties of the plugin *)

(** ** Saving, deleting and restarting *)

Lemma save_shortcuts_writable (σ : plugin) :
  disk_writable σ = true →
  save_shortcuts σ
  = (Ret tt,
     Plugin (shortcuts σ) (FileJson (DocObject (Some (shortcuts σ)))) true
       (os_trace σ) (log σ)).
Proof.
  intros Hw. unfold save_shortcuts, try_except, json_dump_shortcuts, write_disk.
  by rewrite Hw.
Qed.

Lemma save_shortcuts_refused (σ : plugin) :
  disk_writable σ = false → save_shortcuts σ = (Raise AttributeError, σ).
Proof.
  intros Hw. unfold save_shortcuts, try_except, json_dump_shortcuts.
  by rewrite Hw.
Qed.

Lemma init_loads (σ : plugin) (l : list shortcut) :
  disk σ = FileJson (DocObject (Some l)) →
  (init σ).1 = Ret tt ∧ shortcuts (init σ).2 = l.
Proof.
  intros Hdisk. unfold init, load_shortcuts, try_except, lift, set_shortcuts. cbn.
  unfold mbind, act_bind. by rewrite Hdisk.
Qed.



(** X3. A deletion whose write is refused is lost at the next start:
    [delete_shortcut] has already changed the registry in memory when
    the write fails, the handler's lookup of the missing logger then
    raises [AttributeError], the file is untouched, and a fresh
    [__init__] on that file loads the registry it held before the
    deletion. *)
Theorem delete_unsaved_is_lost (σ : plugin) (k : string) (l : list shortcut) :
  Forall has_keyword (shortcuts σ) →
  disk_writable σ = false →
  disk σ = FileJson (DocObject (Some l)) →
  (delete_shortcut k σ).1 = Raise AttributeError
  ∧ shortcuts (delete_shortcut k σ).2
    = List.filter (λ s, negb (keyword_is k s)) (shortcuts σ)
  ∧ disk (delete_shortcut k σ).2 = disk σ
  ∧ log (delete_shortcut k σ).2 = log σ
  ∧ (init (delete_shortcut k σ).2).1 = Ret tt
  ∧ shortcuts (init (delete_shortcut k σ).2).2 = l.
Proof.
  intros Hreg Hw Hdisk. rewrite (delete_shortcut_eq σ k Hreg).
  rewrite save_shortcuts_refused by done. cbn [fst snd].
  destruct (init_loads
              (Plugin (List.filter (λ s, negb (keyword_is k s)) (shortcuts σ))
                 (disk σ) (disk_writable σ) (os_trace σ) (log σ)) l Hdisk) as [Hi Hl].
  by repeat split.
Qed.

Lemma without_keyword_raises (reg : list shortcut) (k : string) :
  Exists (λ s, s !! "keyword" = None) reg → without_keyword reg k = Raise KeyError.
Proof.
  induction reg as [|s rest IH]; intros Hex; [by apply Exists_nil in Hex|].
  cbn [without_keyword]. unfold subscript.
  destruct (s !! "keyword") as [v|] eqn:Hv; [|reflexivity].
  apply Exists_cons in Hex as [Hs|Hrest]; [congruence|].
  cbn. by rewrite (IH Hrest).
Qed.

(** X4. [delete_shortcut] is all or nothing: if any record of the
    registry lacks [keyword], wherever it stands and whatever keyword
    is deleted, the call raises [KeyError] and leaves the registry,
    the file and the log exactly as they were. *)
Theorem delete_all_or_nothing (σ : plugin) (k : string) :
  Exists (λ s, s !! "keyword" = None) (shortcuts σ) →
  delete_shortcut k σ = (Raise KeyError, σ).
Proof.
  intros Hex. unfold delete_shortcut. cbn. unfold mbind at 1, act_bind, lift.
  by rewrite (without_keyword_raises _ k Hex).
Qed.

(** X5. The lookup stops at the first match: when the records in front
    of a record with keyword [k] all carry another keyword, [resolve]
    returns that record without looking at the ones behind it, so
    records behind it that lack [keyword] do no harm. *)
Theorem resolve_stops_at_first_match (pre post : list shortcut) (s : shortcut)
    (k : string) :
  Forall (λ r, has_keyword r ∧ r !! "keyword" ≠ Some (PStr k)) pre →
  s !! "keyword" = Some (PStr k) →
  resolve (pre ++ s :: post) k = Ret (Some s).
Proof.
  intros Hpre Hs. induction Hpre as [|r pre [Hr Hne] _ IH]; cbn [app].
  - rewrite resolve_cons by (unfold has_keyword; by rewrite Hs).
    unfold keyword_is. by rewrite bool_decide_eq_true_2.
  - rewrite resolve_cons by done.
    unfold keyword_is. by rewrite bool_decide_eq_false_2.
Qed.

(** X6. Deleting a keyword that no record has leaves the registry as
    it is, yet still writes the file: when the file is writable the
    call returns and the file ends up holding the registry, whatever
    it held before, even if it did not exist. *)
Theorem delete_absent_keyword (σ : plugin) (k : string) :
  Forall (λ s, has_keyword s ∧ s !! "keyword" ≠ Some (PStr k)) (shortcuts σ) →
  shortcuts (delete_shortcut k σ).2 = shortcuts σ
  ∧ (disk_writable σ = true →
     (delete_shortcut k σ).1 = Ret tt
     ∧ disk (delete_shortcut k σ).2 = FileJson (DocObject (Some (shortcuts σ)))).
Proof.
  intros Hreg.
  assert (Hkw : Forall has_keyword (shortcuts σ)).
  { eapply Forall_impl; [exact Hreg|]. by intros s [? _]. }
  assert (Hkeep : List.filter (λ s, negb (keyword_is k s)) (shortcuts σ) = shortcuts σ).
  { apply List.forallb_filter_id, List.forallb_forall. intros s Hs.
    destruct (proj1 (List.Forall_forall _ _) Hreg s Hs) as [_ Hne].
    apply negb_true_iff. by apply bool_decide_eq_false. }
  rewrite (delete_shortcut_eq σ k Hkw), Hkeep.
  split; [by rewrite save_shortcuts_keeps|].
  intros Hw. by rewrite save_shortcuts_writable.
Qed.

Lemma delete_shortcut_registry (σ : plugin) (k : string) :
  Forall has_keyword (shortcuts σ) →
  shortcuts (delete_shortcut k σ).2
  = List.filter (λ s, negb (keyword_is k s)) (shortcuts σ)
  ∧ Forall has_keyword (shortcuts (delete_shortcut k σ).2).
Proof.
  intros Hreg. rewrite (delete_shortcut_eq σ k Hreg), save_shortcuts_keeps. cbn.
  split; [done|]. apply List.Forall_forall. intros s [Hs _]%List.filter_In.
  by apply (proj1 (List.Forall_forall _ _) Hreg).
Qed.

(** X7. Deletions do not depend on their order or on repetition: the
    registry after deleting [k1] and then [k2] is the registry after
    deleting [k2] and then [k1], and deleting [k1] a second time
    changes nothing. *)
Theorem delete_order_irrelevant (σ : plugin) (k1 k2 : string) :
  Forall has_keyword (shortcuts σ) →
  shortcuts (delete_shortcut k2 (delete_shortcut k1 σ).2).2
  = shortcuts (delete_shortcut k1 (delete_shortcut k2 σ).2).2
  ∧ shortcuts (delete_shortcut k1 (delete_shortcut k1 σ).2).2
    = shortcuts (delete_shortcut k1 σ).2.
Proof.
  intros Hreg.
  destruct (delete_shortcut_registry σ k1 Hreg) as [E1 H1].
  destruct (delete_shortcut_registry σ k2 Hreg) as [E2 H2].
  rewrite (proj1 (delete_shortcut_registry _ k2 H1)).
  rewrite !(proj1 (delete_shortcut_registry _ k1 H1)).
  rewrite (proj1 (delete_shortcut_registry _ k1 H2)).
  rewrite E1, E2, !filter_filter_andb. split.
  - apply List.filter_ext. intros s. apply andb_comm.
  - apply List.filter_ext. intros s. by destruct (keyword_is k1 s).
Qed.

(** ** What execution does and does not touch *)

Lemma with_events_nil (σ : plugin) : with_events σ [] = σ.
Proof. destruct σ. unfold with_events. cbn. by rewrite app_nil_r. Qed.

Section ExecutionFrame.
Variable expandvars : string → string.
Variable os_refuses : os_event → bool.

Lemma dispatch_events (s : shortcut) (path : string) (τ : plugin) :
  ∃ evs, (dispatch os_refuses s path τ).2 = with_events τ evs ∧ (length evs ≤ 1)%nat.
Proof.
  assert (Hreq : ∀ ev, ∃ evs,
            (os_request os_refuses ev τ).2 = with_events τ evs ∧ (length evs ≤ 1)%nat).
  { intros ev. exists [ev]. by rewrite os_request_eq. }
  assert (Hnone : ∀ o : outcome unit, ∃ evs,
            (o, τ).2 = with_events τ evs ∧ (length evs ≤ 1)%nat).
  { intros o. exists []. rewrite with_events_nil. cbn. split; [done | lia]. }
  unfold dispatch, os_startfile, subprocess_Popen, lift, mret, act_ret.
  destruct (py_eq _ (PStr "url")); [apply Hreq|].
  destruct (py_eq _ (PStr "folder")); [apply Hreq|].
  destruct (py_eq _ (PStr "file")).
  - destruct (truthy _); [|apply Hreq].
    destruct (default PNone (s !! "openWith")); try apply Hnone. apply Hreq.
  - destruct (py_eq _ (PStr "app")); [apply Hreq | apply Hnone].
Qed.

Lemma launch_events (s : shortcut) (σ : plugin) :
  ∃ evs, (launch expandvars os_refuses s σ).2 = with_events σ evs
         ∧ (length evs ≤ 2)%nat.
Proof.
  unfold launch, os_path_expandvars.
  destruct (dict_get s "path" (PStr EmptyString)) as [| | |p];
    try (exists []; rewrite with_events_nil; cbn; split; [done | lia]).
  cbn. unfold mbind, act_bind. cbn.
  change (Plugin (shortcuts σ) (disk σ) (disk_writable σ) (os_trace σ ++ [Expandvars p])
            (log σ)) with (with_events σ [Expandvars p]).
  destruct (dispatch_events s (expandvars p) (with_events σ [Expandvars p]))
    as (evs & Hevs & Hlen).
  exists (Expandvars p :: evs).
  destruct (dispatch os_refuses s (expandvars p) (with_events σ [Expandvars p]))
    as [[[]|e] τ]; cbn in *; subst τ; rewrite with_events_app; cbn; split; try done; lia.
Qed.

Lemma execute_appends (σ : plugin) (k : string) :
  ∃ evs,
    (execute_shortcut expandvars os_refuses k σ).2 = with_events σ evs
    ∧ (length evs ≤ 2)%nat.
Proof.
  assert (Hsame : ∀ o : outcome bool, ∃ evs,
            (o, σ).2 = with_events σ evs ∧ (length evs ≤ 2)%nat).
  { intros o. exists []. rewrite with_events_nil. cbn. split; [done | lia]. }
  unfold execute_shortcut.
  destruct (resolve (shortcuts σ) k) as [[s|]|e]; try apply Hsame.
  destruct (negb (dict_truthy s)); [apply Hsame|].
  unfold try_except. destruct (launch_events s σ) as (evs & Hevs & Hlen).
  destruct (launch expandvars os_refuses s σ) as [[b|e] τ]; cbn in Hevs; subst τ;
    by exists evs.
Qed.

(** X8. [execute_shortcut] only ever appends to the trace of OS
    requests and to the log: whatever the registry and the keyword, it
    leaves the registry, the file and its writability untouched,
    makes at most two requests (the expansion and one launch) and
    logs at most one error, and it logs nothing when it returns
    [True]. *)
Theorem execute_frame (σ : plugin) (k : string) :
  let run := execute_shortcut expandvars os_refuses k σ in
  shortcuts run.2 = shortcuts σ
  ∧ disk run.2 = disk σ
  ∧ disk_writable run.2 = disk_writable σ
  ∧ ∃ evs entries,
      os_trace run.2 = os_trace σ ++ evs
      ∧ log run.2 = log σ ++ entries
      ∧ (length evs ≤ 2)%nat
      ∧ (length entries ≤ 1)%nat
      ∧ (run.1 = Ret true → entries = []).
Proof.
  cbn zeta. destruct (execute_appends σ k) as (evs & E & Hevs).
  rewrite E. repeat split. exists evs, []. cbn. rewrite app_nil_r.
  repeat split; [done | lia].
Qed.

(** X9. A type outside the four reports success without launching
    anything: for a record that [resolve] returns, with a string path
    and a [type] that is none of [url], [folder], [file] and [app],
    [execute_shortcut] expands the path, makes no launch request and
    returns [True]. *)
Theorem execute_unknown_type (σ : plugin) (k : string) (s : shortcut) (p : string)
    (ty : pyval) :
  resolve (shortcuts σ) k = Ret (Some s) →
  dict_get s "path" (PStr EmptyString) = PStr p →
  s !! "type" = Some ty →
  ty ≠ PStr "url" → ty ≠ PStr "folder" → ty ≠ PStr "file" → ty ≠ PStr "app" →
  execute_shortcut expandvars os_refuses k σ = (Ret true, with_events σ [Expandvars p]).
Proof.
  intros Hres Hp Hty Hu Hfo Hfi Ha.
  assert (Hne : ∀ x, ty ≠ PStr x → py_eq ty (PStr x) = false).
  { intros x Hx. destruct (py_eq ty (PStr x)) eqn:E; [|done].
    by apply py_eq_str in E. }
  rewrite (execute_found expandvars os_refuses σ k s Hres).
  unfold try_except. rewrite (launch_eq expandvars os_refuses σ s p Hp).
  unfold dispatch, dict_get. rewrite Hty. cbn [from_option id].
  by rewrite (Hne _ Hu), (Hne _ Hfo), (Hne _ Hfi), (Hne _ Ha).
Qed.

(** X10. A path that is not a string launches nothing: for a record
    that [resolve] returns and whose [path] holds a number, a boolean
    or [None], [execute_shortcut] makes no request at all; the
    [TypeError] of the expansion reaches the handler, whose lookup of
    the missing logger raises [AttributeError], and the state is as
    it was. *)
Theorem execute_path_not_a_string (σ : plugin) (k : string) (s : shortcut) (v : pyval) :
  resolve (shortcuts σ) k = Ret (Some s) →
  s !! "path" = Some v →
  (∀ p, v ≠ PStr p) →
  launch expandvars os_refuses s σ = (Raise TypeError, σ)
  ∧ execute_shortcut expandvars os_refuses k σ = (Raise AttributeError, σ).
Proof.
  intros Hres Hv Hns.
  rewrite (execute_found expandvars os_refuses σ k s Hres).
  unfold try_except, launch, dict_get. rewrite Hv. cbn [from_option id].
  destruct v as [| | |p]; try (split; reflexivity). by destruct (Hns p).
Qed.
End ExecutionFrame.

(** ** Opening the editor *)

Section EditorProperties.
Variables (sys_executable editor_path shortcuts_file : string).
Variable editor_exists : bool.
Variable os_refuses : os_event → bool.

(** X11. [open_editor] makes exactly one request: it starts the
    editor script with the Python interpreter when the script exists,
    and otherwise opens the shortcuts file with its default handler.
    It returns when the request is accepted; when it is refused the
    handler's lookup of the missing logger raises [AttributeError].
    The registry and the file are never touched. *)
Theorem open_editor_one_request (σ : plugin) :
  let call := if editor_exists then Popen (Argv [sys_executable; editor_path])
              else Startfile shortcuts_file in
  let run := open_editor sys_executable editor_path shortcuts_file editor_exists
               os_refuses σ in
  run.1 = (if os_refuses call then Raise AttributeError else Ret tt)
  ∧ shortcuts run.2 = shortcuts σ
  ∧ disk run.2 = disk σ
  ∧ os_trace run.2 = os_trace σ ++ [call]
  ∧ log run.2 = log σ.
Proof.
  cbn zeta. unfold open_editor, try_except, subprocess_Popen, os_startfile.
  destruct editor_exists; rewrite os_request_eq; by destruct (os_refuses _).
Qed.
End EditorProperties.

(** ** Copying a path *)

Section ClipboardProperties.
Context {E Clip : Type}.
Variable pyperclip_copy : pyval → Clip → E + Clip.

(** X12. [copy_path] hands the clipboard the stored path of the first
    record with the keyword, as it is written in the record (no
    expansion of environment variables; the empty string when the
    record has no path).  When no record has the keyword it returns
    without touching the clipboard and without importing
    [pyperclip], so it cannot fail there even if the module is
    missing. *)
Theorem copy_path_first_match (σ : plugin) (k : string) (clip : Clip) :
  Forall has_keyword (shortcuts σ) →
  copy_path pyperclip_copy k σ clip
  = match head (List.filter (keyword_is k) (shortcuts σ)) with
    | Some s =>
        match pyperclip_copy (dict_get s "path" (PStr EmptyString)) clip with
        | inl err => CopyFault err
        | inr clip' => CopyReturn clip'
        end
    | None => CopyReturn clip
    end.
Proof.
  intros Hreg. unfold copy_path. rewrite (resolve_head_filter _ k Hreg).
  destruct (head _) as [s|] eqn:Hhead; [|reflexivity].
  assert (In s (List.filter (keyword_is k) (shortcuts σ))) as Hin.
  { destruct (List.filter _ _); [discriminate|]. injection Hhead as ->. by left. }
  apply List.filter_In in Hin as [_ Hk]. apply bool_decide_eq_true in Hk.
  by rewrite (dict_truthy_lookup s _ _ Hk).
Qed.
End ClipboardProperties.

(** ** From a displayed entry to its execution *)

(** X13. The action of a displayed entry always finds a record: the
    entry that [format_shortcut_result] builds for a record of the
    registry names the method [execute_shortcut] with the record's
    stored keyword as its only parameter (and as context data), and
    [resolve] with that keyword returns a record with that keyword,
    never the absent result; it is the displayed record itself unless
    an earlier record has the same keyword. *)
Theorem entry_action_resolves (reg : list shortcut) (s : shortcut) (k : string) :
  Forall has_keyword reg →
  In s reg →
  s !! "keyword" = Some (PStr k) →
  ∃ r s',
    format_shortcut_result s = Ret r
    ∧ JsonRPCAction r = Some (RpcAction "execute_shortcut" [PStr k])
    ∧ ContextData r = Some (PStr k)
    ∧ resolve reg k = Ret (Some s')
    ∧ s' !! "keyword" = Some (PStr k)
    ∧ (∀ pre post, reg = pre ++ s :: post →
         Forall (λ r, r !! "keyword" ≠ Some (PStr k)) pre → s' = s).
Proof.
  intros Hreg Hin Hk.
  assert (Hs : In s (List.filter (keyword_is k) reg)).
  { apply List.filter_In. split; [done|]. by apply bool_decide_eq_true. }
  destruct (head (List.filter (keyword_is k) reg)) as [s'|] eqn:Hhead.
  2:{ destruct (List.filter (keyword_is k) reg); [by destruct Hs | discriminate]. }
  eexists _, s'. split.
  { unfold format_shortcut_result, subscript. rewrite Hk. reflexivity. }
  split; [reflexivity|]. split; [reflexivity|].
  split; [by rewrite (resolve_head_filter reg k Hreg), Hhead|]. split.
  - assert (In s' (List.filter (keyword_is k) reg)) as Hin'.
    { destruct (List.filter _ _); [discriminate|]. injection Hhead as ->. by left. }
    apply List.filter_In in Hin' as [_ Hk']. by apply bool_decide_eq_true in Hk'.
  - intros pre post -> Hpre. rewrite List.filter_app, filter_none_nil in Hhead.
    + cbn in Hhead. unfold keyword_is in Hhead at 1.
      rewrite bool_decide_eq_true_2 in Hhead by done. by injection Hhead.
    + eapply Forall_impl; [exact Hpre|]. intros r Hr. by apply bool_decide_eq_false.
Qed.

(** ** Searching after a deletion *)

(** X14. Deletion is exact where the search is not: on a registry of
    valid records with ASCII keywords, after [delete_shortcut k] for
    an ASCII [k] that is not blank and not [list], a [query] for the
    same text still returns, in registry order, the entries of the
    records whose keyword equals [k] up to case but not exactly, and
    only those.  This holds whether or not the write of the deletion
    succeeds. *)
Theorem query_after_delete (σ : plugin) (k : string) :
  ascii_text k = true →
  Forall (λ s, ascii_keyword s = true) (shortcuts σ) →
  valid_registry (shortcuts σ) = true →
  blank k = false →
  lower k ≠ "list" →
  ∃ results,
    query (delete_shortcut k σ).2 k = Ret results
    ∧ mapM format_shortcut_result (List.filter (survives_delete k) (shortcuts σ))
      = Ret results.
Proof.
  intros _ _ Hreg%valid_registry_Forall Hb Hl.
  assert (Hkw : Forall has_keyword (shortcuts σ)).
  { eapply Forall_impl; [exact Hreg|]. apply valid_has_keyword. }
  assert (Hs : strip k ≠ EmptyString).
  { intros H%strip_blank. congruence. }
  assert (Htext : lower k ≠ EmptyString).
  { intros H. apply lower_empty in H. by subst k. }
  destruct (delete_shortcut_registry σ k Hkw) as [E _].
  rewrite (query_search _ k Hl Hs), E.
  rewrite (search_by_keyword_filter k _ Htext).
  2:{ apply List.Forall_forall. intros s [Hin _]%List.filter_In.
      destruct (valid_shortcut_fields s (proj1 (List.Forall_forall _ _) Hreg s Hin))
        as ([kw Hkw'] & _). by rewrite Hkw'. }
  rewrite filter_filter_andb.
  rewrite (List.filter_ext _ (survives_delete k))
    by (intros s; unfold survives_delete; apply andb_comm).
  destruct (mapM_Ret format_shortcut_result
              (List.filter (survives_delete k) (shortcuts σ))) as (rs & Hrs & _);
    [|by exists rs].
  apply List.Forall_forall. intros s [Hin _]%List.filter_In.
  apply format_shortcut_result_Ret.
  by apply (proj1 (List.Forall_forall _ _) Hkw).
Qed.

(** ** Every record is listed once *)

Lemma categories_append_concat (G : list (pyval * list shortcut)) (c : pyval)
    (s : shortcut) :
  concat (map snd (categories_append G c s)) ≡ₚ s :: concat (map snd G).
Proof.
  induction G as [|[c1 l1] G IH]; cbn [categories_append]; [done|].
  destruct (py_eq c1 c); cbn.
  - rewrite <- app_assoc. cbn. symmetry. apply Permutation_middle.
  - rewrite IH. symmetry. apply Permutation_middle.
Qed.

Lemma group_by_category_concat (reg : list shortcut) :
  concat (map snd (group_by_category reg)) ≡ₚ reg.
Proof.
  unfold group_by_category. induction reg as [|s reg IH] using rev_ind; [done|].
  rewrite fold_left_app. cbn. rewrite categories_append_concat, IH.
  apply Permutation_cons_append.
Qed.

Lemma concat_Permutation {A} (l l' : list (list A)) :
  l ≡ₚ l' → concat l ≡ₚ concat l'.
Proof.
  induction 1 as [|x l l' _ IH|x y l|l l' l'' _ IH1 _ IH2]; cbn.
  - done.
  - by rewrite IH.
  - rewrite !app_assoc. apply Permutation_app_tail, Permutation_app_comm.
  - by rewrite IH1.
Qed.

Lemma display_groups_concat (reg : list shortcut) :
  concat (map snd (display_groups reg)) ≡ₚ reg.
Proof.
  unfold display_groups. rewrite List.map_map. cbn.
  transitivity (concat (map snd (isort item_ltb (group_by_category reg)))).
  - induction (isort item_ltb (group_by_category reg)) as [|g l IH]; cbn; [done|].
    by rewrite IH, isort_Permutation.
  - rewrite (concat_Permutation _ (map snd (group_by_category reg))).
    + apply group_by_category_concat.
    + apply Permutation_map, isort_Permutation.
Qed.

Lemma mapM_Ret_inv {A B} (f : A → outcome B) (l : list A) (ys : list B) :
  mapM f l = Ret ys → Forall2 (λ x y, f x = Ret y) l ys.
Proof.
  revert ys. induction l as [|x l IH]; intros ys; cbn.
  - intros [= <-]. constructor.
  - destruct (f x) as [y|] eqn:Hy; cbn; [|discriminate].
    destruct (mapM f l) as [ys'|]; cbn; [|discriminate].
    intros [= <-]. constructor; [done | by apply IH].
Qed.

Lemma render_length (groups : list (pyval * list shortcut)) (results : list result_item) :
  render groups = Ret results →
  length results = (length groups + length (concat (map snd groups)))%nat.
Proof.
  unfold render. destruct (mapM render_group groups) as [blocks|] eqn:E; cbn;
    [|discriminate].
  intros [= <-]. apply mapM_Ret_inv in E.
  induction E as [|g block groups blocks Hg _ IH]; cbn; [done|].
  rewrite !length_app, IH. unfold render_group in Hg.
  destruct (mapM format_shortcut_result g.2) as [entries|] eqn:He; cbn in Hg;
    [|discriminate].
  injection Hg as <-. apply mapM_Ret_inv, Forall2_length in He. cbn. lia.
Qed.

Lemma display_groups_keys (reg : list shortcut) :
  Forall (λ s, valid_shortcut s = true) reg →
  map fst (display_groups reg) ≡ₚ remove_dups (map category_of reg).
Proof.
  intros Hreg. destruct (group_by_category_grouped reg Hreg) as (Hnd & HG & Hall).
  transitivity (map fst (group_by_category reg)).
  { unfold display_groups. rewrite List.map_map. cbn.
    apply Permutation_map, isort_Permutation. }
  apply NoDup_Permutation; [done | apply NoDup_remove_dups |].
  intros c. rewrite elem_of_remove_dups, !list_elem_of_In, !List.in_map_iff. split.
  - intros (g & <- & Hg).
    destruct (proj1 (List.Forall_forall _ _) HG g Hg) as [E Hne].
    destruct g.2 as [|r ms] eqn:Eg; [done|].
    assert (In r (List.filter (has_category g.1) reg)) as Hr by (rewrite <- E; by left).
    apply List.filter_In in Hr as [Hr Hc]. apply bool_decide_eq_true in Hc. eauto.
  - intros (r & <- & Hr). apply List.in_map_iff, list_elem_of_In. by apply Hall.
Qed.

(** X15. The listing loses and repeats nothing: on a registry of valid
    records the groups that [show_shortcut_list] renders hold, taken
    together, exactly the records of the registry, each once, and the
    listing has one entry per record plus one header per distinct
    category; it is empty exactly when the registry is. *)
Theorem listing_shows_every_record_once (σ : plugin) :
  valid_registry (shortcuts σ) = true →
  ∃ results,
    show_shortcut_list σ = Ret results
    ∧ render (display_groups (shortcuts σ)) = Ret results
    ∧ concat (map snd (display_groups (shortcuts σ))) ≡ₚ shortcuts σ
    ∧ length results
      = (length (shortcuts σ) + length (remove_dups (map category_of (shortcuts σ))))%nat
    ∧ (results = [] ↔ shortcuts σ = []).
Proof.
  intros Hreg%valid_registry_Forall.
  destruct (show_shortcut_list_Ret σ Hreg) as (results & Hshow & Hrender).
  pose proof (display_groups_concat (shortcuts σ)) as Hperm.
  assert (Hlen : length results
                 = (length (shortcuts σ)
                    + length (remove_dups (map category_of (shortcuts σ))))%nat).
  { rewrite (render_length _ _ Hrender), (Permutation_length Hperm).
    rewrite <- (Permutation_length (display_groups_keys _ Hreg)), List.length_map. lia. }
  exists results. repeat split; try done.
  - intros ->. cbn in Hlen. destruct (shortcuts σ); [done | cbn in Hlen; lia].
  - intros E. rewrite E in Hlen. cbn in Hlen. by destruct results.
Qed.

(** ** The case of the query text *)

Lemma isspace_lower_char (c : ascii) : isspace (lower_char c) = isspace c.
Proof. by destruct c as [[] [] [] [] [] [] [] []]. Qed.

Lemma blank_lower (s : string) : blank (lower s) = blank s.
Proof.
  induction s as [|c s IH]; [done|]. cbn. by rewrite isspace_lower_char, IH.
Qed.

Lemma search_by_keyword_lower (t1 t2 : string) (reg : list shortcut) :
  lower t1 = lower t2 → search_by_keyword t1 reg = search_by_keyword t2 reg.
Proof.
  intros Hl. induction reg as [|s reg IH]; [done|].
  cbn [search_by_keyword]. by rewrite Hl, IH.
Qed.

(** X16. [query] does not see the ASCII case of its text: two ASCII
    texts that lowercase to the same string get the same answer, be
    it the listing, the matches or the help entry, on every registry
    whose keywords (where they are strings) are ASCII. *)
Theorem query_ignores_case (σ : plugin) (t1 t2 : string) :
  ascii_text t1 = true →
  ascii_text t2 = true →
  Forall (λ s, ascii_keyword s = true) (shortcuts σ) →
  lower t1 = lower t2 → query σ t1 = query σ t2.
Proof.
  intros _ _ _ Hl. unfold query. rewrite Hl.
  destruct (String.eqb (lower t2) "list"); [done|].
  assert (Hb : blank t1 = blank t2) by by rewrite <- (blank_lower t1), Hl, blank_lower.
  rewrite (search_by_keyword_lower t1 t2 _ Hl).
  destruct (String.eqb_spec (strip t1) EmptyString) as [E1|N1];
    destruct (String.eqb_spec (strip t2) EmptyString) as [E2|N2]; try done.
  - apply strip_blank in E1. destruct N2. apply strip_blank. congruence.
  - apply strip_blank in E2. destruct N1. apply strip_blank. congruence.
Qed.

(** ** The further properties at work on sample registries *)



Lemma delete_unsaved_is_lost_witness :
  Forall has_keyword
    (shortcuts (Plugin sample_registry (FileJson (DocObject (Some sample_registry)))
                  false [] []))
  ∧ disk_writable
      (Plugin sample_registry (FileJson (DocObject (Some sample_registry))) false [] [])
    = false
  ∧ (delete_shortcut "go"
       (Plugin sample_registry (FileJson (DocObject (Some sample_registry)))
          false [] [])).1
    = Raise AttributeError
  ∧ shortcuts
      (init (delete_shortcut "go"
               (Plugin sample_registry (FileJson (DocObject (Some sample_registry)))
                  false [] [])).2).2
    = sample_registry.
Proof.
  split; [exact sample_registry_has_keyword|]. split; [reflexivity|].
  destruct (delete_unsaved_is_lost
              (Plugin sample_registry (FileJson (DocObject (Some sample_registry)))
                 false [] [])
              "go" sample_registry sample_registry_has_keyword eq_refl eq_refl)
    as (E1 & _ & _ & _ & _ & E2).
  by split.
Defined.

Lemma delete_all_or_nothing_witness :
  Exists (λ s, s !! "keyword" = None) (shortcuts (plugin_of [sample_go; nameless]))
  ∧ delete_shortcut "go" (plugin_of [sample_go; nameless])
    = (Raise KeyError, plugin_of [sample_go; nameless]).
Proof.
  assert (H : Exists (λ s, s !! "keyword" = None)
                (shortcuts (plugin_of [sample_go; nameless])))
    by (apply Exists_cons_tl, Exists_cons_hd; reflexivity).
  split; [exact H|]. exact (delete_all_or_nothing _ "go" H).
Defined.

Lemma resolve_stops_at_first_match_witness :
  Forall (λ r, has_keyword r ∧ r !! "keyword" ≠ Some (PStr "go")) [sample_docs]
  ∧ sample_go !! "keyword" = Some (PStr "go")
  ∧ resolve ([sample_docs] ++ sample_go :: [nameless]) "go" = Ret (Some sample_go).
Proof.
  assert (H : Forall (λ r, has_keyword r ∧ r !! "keyword" ≠ Some (PStr "go"))
                [sample_docs]).
  { repeat constructor; vm_compute; eauto; discriminate. }
  split; [exact H|]. split; [reflexivity|].
  exact (resolve_stops_at_first_match [sample_docs] [nameless] sample_go "go" H eq_refl).
Defined.

Lemma delete_absent_keyword_witness :
  Forall (λ s, has_keyword s ∧ s !! "keyword" ≠ Some (PStr "missing"))
    (shortcuts (plugin_of sample_registry))
  ∧ disk (delete_shortcut "missing" (plugin_of sample_registry)).2
    = FileJson (DocObject (Some sample_registry)).
Proof.
  assert (H : Forall (λ s, has_keyword s ∧ s !! "keyword" ≠ Some (PStr "missing"))
                (shortcuts (plugin_of sample_registry))).
  { repeat constructor; vm_compute; eauto; discriminate. }
  split; [exact H|].
  destruct (delete_absent_keyword (plugin_of sample_registry) "missing" H)
    as (_ & E).
  exact (proj2 (E eq_refl)).
Defined.

Lemma delete_order_irrelevant_witness :
  Forall has_keyword (shortcuts (plugin_of sample_registry))
  ∧ shortcuts (delete_shortcut "docs"
                 (delete_shortcut "go" (plugin_of sample_registry)).2).2
    = shortcuts (delete_shortcut "go"
                   (delete_shortcut "docs" (plugin_of sample_registry)).2).2.
Proof.
  split; [exact sample_registry_has_keyword|].
  exact (proj1 (delete_order_irrelevant (plugin_of sample_registry) "go" "docs"
                  sample_registry_has_keyword)).
Defined.

Lemma execute_unknown_type_witness :
  resolve (shortcuts (plugin_of [sample_website])) "w" = Ret (Some sample_website)
  ∧ execute_shortcut (λ p, p) (λ _, true) "w" (plugin_of [sample_website])
    = (Ret true, with_events (plugin_of [sample_website]) [Expandvars "x"]).
Proof.
  assert (H : resolve (shortcuts (plugin_of [sample_website])) "w"
              = Ret (Some sample_website)) by reflexivity.
  split; [exact H|].
  apply (execute_unknown_type (λ p, p) (λ _, true) (plugin_of [sample_website]) "w"
           sample_website "x" (PStr "website") H);
    [reflexivity | reflexivity | discriminate..].
Defined.

Lemma execute_path_not_a_string_witness :
  resolve (shortcuts (plugin_of [sample_numeric_path])) "n" = Ret (Some sample_numeric_path)
  ∧ sample_numeric_path !! "path" = Some (PInt 7)
  ∧ execute_shortcut (λ p, p) (λ _, false) "n" (plugin_of [sample_numeric_path])
    = (Raise AttributeError, plugin_of [sample_numeric_path]).
Proof.
  assert (H : resolve (shortcuts (plugin_of [sample_numeric_path])) "n"
              = Ret (Some sample_numeric_path)) by reflexivity.
  split; [exact H|]. split; [reflexivity|].
  apply (execute_path_not_a_string (λ p, p) (λ _, false)
           (plugin_of [sample_numeric_path]) "n" sample_numeric_path (PInt 7) H);
    [reflexivity | discriminate].
Defined.

Lemma copy_path_first_match_witness :
  Forall has_keyword (shortcuts (plugin_of sample_registry))
  ∧ copy_path clipboard_set "docs" (plugin_of sample_registry) None
    = CopyReturn (Some (PStr "%USERPROFILE%\Documents"))
  ∧ copy_path clipboard_missing "missing" (plugin_of sample_registry) None
    = CopyReturn None.
Proof.
  split; [exact sample_registry_has_keyword|]. split.
  - rewrite (copy_path_first_match clipboard_set (plugin_of sample_registry) "docs"
               None sample_registry_has_keyword). reflexivity.
  - rewrite (copy_path_first_match clipboard_missing (plugin_of sample_registry)
               "missing" None sample_registry_has_keyword). reflexivity.
Defined.

Lemma entry_action_resolves_witness :
  Forall has_keyword sample_registry
  ∧ In sample_go_again sample_registry
  ∧ sample_go_again !! "keyword" = Some (PStr "go")
  ∧ ∃ s', resolve sample_registry "go" = Ret (Some s')
          ∧ s' !! "keyword" = Some (PStr "go").
Proof.
  assert (Hin : In sample_go_again sample_registry) by (right; right; left; reflexivity).
  split; [exact sample_registry_has_keyword|]. split; [exact Hin|].
  split; [reflexivity|].
  destruct (entry_action_resolves sample_registry sample_go_again "go"
              sample_registry_has_keyword Hin eq_refl) as (r & s' & _ & _ & _ & E & K & _).
  exists s'. by split.
Defined.

Lemma query_after_delete_witness :
  ascii_text "notes" = true
  ∧ Forall (λ s, ascii_keyword s = true) (shortcuts (plugin_of sample_registry))
  ∧ valid_registry (shortcuts (plugin_of sample_registry)) = true
  ∧ blank "notes" = false
  ∧ lower "notes" ≠ "list"
  ∧ ∃ results,
      query (delete_shortcut "notes" (plugin_of sample_registry)).2 "notes" = Ret results
      ∧ length results = 1%nat.
Proof.
  assert (H1 : valid_registry (shortcuts (plugin_of sample_registry)) = true)
    by reflexivity.
  assert (H2 : blank "notes" = false) by reflexivity.
  assert (H3 : lower "notes" ≠ "list") by (vm_compute; discriminate).
  split; [reflexivity|]. split; [exact sample_registry_ascii|].
  split; [exact H1|]. split; [exact H2|]. split; [exact H3|].
  destruct (query_after_delete (plugin_of sample_registry) "notes" eq_refl
              sample_registry_ascii H1 H2 H3)
    as (results & Hq & Hm).
  exists results. split; [exact Hq|].
  apply mapM_Ret_inv, Forall2_length in Hm. rewrite <- Hm. reflexivity.
Defined.

Lemma listing_shows_every_record_once_witness :
  valid_registry (shortcuts (plugin_of sample_registry)) = true
  ∧ ∃ results,
      show_shortcut_list (plugin_of sample_registry) = Ret results
      ∧ length results = 6%nat.
Proof.
  assert (H : valid_registry (shortcuts (plugin_of sample_registry)) = true)
    by reflexivity.
  split; [exact H|].
  destruct (listing_shows_every_record_once (plugin_of sample_registry) H)
    as (results & Hshow & _ & _ & Hlen & _).
  exists results. split; [exact Hshow|]. rewrite Hlen. reflexivity.
Defined.

Lemma query_ignores_case_witness :
  ascii_text "GO" = true
  ∧ ascii_text "go" = true
  ∧ Forall (λ s, ascii_keyword s = true) (shortcuts (plugin_of sample_registry))
  ∧ lower "GO" = lower "go"
  ∧ query (plugin_of sample_registry) "GO" = query (plugin_of sample_registry) "go".
Proof.
  split; [reflexivity|]. split; [reflexivity|]. split; [exact sample_registry_ascii|].
  split; [reflexivity|].
  exact (query_ignores_case (plugin_of sample_registry) "GO" "go" eq_refl eq_refl
           sample_registry_ascii eq_refl).
Defined.
